(** * TalkFlow: the session-scoped conversation relay of [backend/app/main.py]

    A shallow embedding of the FastAPI handlers that keep per-conversation
    history in the process-wide dictionary [chat_sessions], forward it to an
    Ollama server and write the reply back, followed by the properties of
    the relay that the specification states.

    Conventions.
    - [datetime] values are integers (a count of microseconds); every
      evaluation of [datetime.now()] reads the next value of a clock.
    - [str(uuid.uuid4())] reads the next value of an identifier source.
    - A handler is a computation over the [World]; an exception raised by
      Python code is the [Raise] outcome and never rolls the world back.
    - Every handler runs without interleaving with another one, so the
      local alias [session = chat_sessions[session_id]] always denotes the
      entry stored under [session_id]; in-place mutation of that dictionary
      is an update of the entry. *)

From Stdlib Require Import ZArith List String DecimalString Bool Lia.
From Stdlib Require Import Sorting.Sorted Sorting.Permutation.
Import ListNotations.

Local Open Scope string_scope.
Local Open Scope list_scope.
Local Open Scope Z_scope.
Set Warnings "-register-all".

(** ** Decoded JSON values, with the Python operations the handlers apply

    A number is kept as an integer: the handlers only test whether it is
    zero, and raise on every other use of it. *)

Inductive json : Type :=
| JNull
| JBool (b : bool)
| JNum (n : Z)
| JStr (s : string)
| JArr (xs : list json)
| JObj (kvs : list (string * json)).

Inductive exn : Type :=
| HTTPException (status_code : Z) (detail : string)
| RequestError
| HTTPStatusError (status_code : Z) (text : string)
| JSONDecodeError
| KeyError (key : string)
| TypeError
| AttributeError
| ValidationError.

Inductive outcome (A : Type) : Type :=
| Return (a : A)
| Raise (e : exn).
Arguments Return {A} a.
Arguments Raise {A} e.

(** A Python [dict] with string keys: insertion-ordered, keys unique. *)
Definition dict (V : Type) : Type := list (string * V).

Fixpoint dict_contains {V} (k : string) (d : dict V) : bool :=
  match d with
  | [] => false
  | (k', _) :: d' => if String.eqb k k' then true else dict_contains k d'
  end.

Fixpoint dict_getitem {V} (k : string) (d : dict V) : option V :=
  match d with
  | [] => None
  | (k', v) :: d' => if String.eqb k k' then Some v else dict_getitem k d'
  end.

(** [d[k] = v]: an existing key keeps its position, a new key goes last. *)
Fixpoint dict_setitem {V} (k : string) (v : V) (d : dict V) : dict V :=
  match d with
  | [] => [(k, v)]
  | (k', v') :: d' =>
      if String.eqb k k' then (k', v) :: d' else (k', v') :: dict_setitem k v d'
  end.

(** [del d[k]] *)
Fixpoint dict_delitem {V} (k : string) (d : dict V) : dict V :=
  match d with
  | [] => []
  | (k', v') :: d' =>
      if String.eqb k k' then d' else (k', v') :: dict_delitem k d'
  end.

(** In-place mutation of the value stored under [k]. *)
Fixpoint dict_update {V} (k : string) (f : V -> V) (d : dict V) : dict V :=
  match d with
  | [] => []
  | (k', v') :: d' =>
      if String.eqb k k' then (k', f v') :: d' else (k', v') :: dict_update k f d'
  end.

Definition dict_keys {V} (d : dict V) : list string := map fst d.

(** Truth value of a decoded JSON value in a Python condition. *)
Definition py_truthy (v : json) : bool :=
  match v with
  | JNull => false
  | JBool b => b
  | JNum n => negb (n =? 0)
  | JStr s => negb (String.eqb s "")
  | JArr xs => match xs with [] => false | _ => true end
  | JObj kvs => match kvs with [] => false | _ => true end
  end.

Definition is_JStr (k : string) (v : json) : bool :=
  match v with
  | JStr s => String.eqb s k
  | _ => false
  end.

Definition substring_of (k s : string) : bool :=
  match String.index 0 k s with
  | Some _ => true
  | None => false
  end.

(** [k in v] for a string [k] *)
Definition py_in (k : string) (v : json) : outcome bool :=
  match v with
  | JObj kvs => Return (dict_contains k kvs)
  | JArr xs => Return (existsb (is_JStr k) xs)
  | JStr s => Return (substring_of k s)
  | _ => Raise TypeError
  end.

(** [v[k]] for a string [k] *)
Definition py_getitem (v : json) (k : string) : outcome json :=
  match v with
  | JObj kvs =>
      match dict_getitem k kvs with
      | Some x => Return x
      | None => Raise (KeyError k)
      end
  | _ => Raise TypeError
  end.

(** [v.get(k, default)] *)
Definition py_get (v : json) (k : string) (default : json) : outcome json :=
  match v with
  | JObj kvs =>
      match dict_getitem k kvs with
      | Some x => Return x
      | None => Return default
      end
  | _ => Raise AttributeError
  end.

(** [for x in v]: the values the iteration produces *)
Definition py_iter (v : json) : outcome (list json) :=
  match v with
  | JArr xs => Return xs
  | JObj kvs => Return (map (fun kv => JStr (fst kv)) kvs)
  | JStr s =>
      Return (map (fun c => JStr (String c EmptyString)) (list_ascii_of_string s))
  | _ => Raise TypeError
  end.

(** Truth value of an [Optional[str]] request field. *)
Definition opt_truthy (o : option string) : bool :=
  match o with
  | Some s => negb (String.eqb s "")
  | None => false
  end.

(** ** Data model *)

(** A stored message: the dictionary with keys role, content, timestamp. *)
Record Message : Type := mkMessage {
  role : string;
  content : json;
  timestamp : Z
}.

(** A stored session: the dictionary with keys model, messages, created_at,
    last_updated. *)
Record Session : Type := mkSession {
  model : string;
  messages : list Message;
  created_at : Z;
  last_updated : Z
}.

Record ChatRequest : Type := mkChatRequest {
  req_message : string;
  req_model : string;
  req_session_id : option string;
  req_system_prompt : option string
}.

Record ChatResponse : Type := mkChatResponse {
  response : string;
  resp_session_id : string;
  resp_model : string;
  resp_timestamp : Z
}.

Record SessionInfo : Type := mkSessionInfo {
  info_session_id : string;
  info_model : string;
  info_created_at : Z;
  info_last_updated : Z;
  message_count : nat
}.

(** The body of [get_session]'s answer. *)
Record SessionDetails : Type := mkSessionDetails {
  det_session_id : string;
  det_model : string;
  det_created_at : Z;
  det_last_updated : Z;
  det_messages : list Message
}.

(** One entry of the message list in Ollama format: role and content. *)
Definition OllamaMessage : Type := (string * json)%type.

(** The JSON body posted to [/api/chat]. *)
Record Payload : Type := mkPayload {
  payload_model : string;
  payload_messages : list OllamaMessage;
  payload_stream : bool
}.

(** What the HTTP client observes for a non-streaming call: the request
    raised [httpx.RequestError], or [raise_for_status] raised
    [httpx.HTTPStatusError] for a response with this status and text, or
    the response passed [raise_for_status] and has this text. *)
Inductive Reply : Type :=
| Unreachable
| ErrorStatus (status_code : Z) (text : string)
| Success (text : string).

(** The same for a streaming call; [Lines ls dropped] delivers the lines
    [ls] and then either ends ([dropped = false]) or fails with
    [httpx.RequestError] ([dropped = true]). *)
Inductive StreamReply : Type :=
| StreamUnreachable
| StreamErrorStatus (status_code : Z) (text : string)
| Lines (ls : list string) (dropped : bool).

(** One server-sent event produced by [generate]. *)
Inductive Chunk : Type :=
| ContentChunk (content : string) (session_id : string)
| DoneChunk (session_id : string).

(** ** The world: the module-level dictionary and the environment *)

Record World : Type := mkWorld {
  chat_sessions : dict Session;
  ticks : nat;            (* evaluations of datetime.now() so far *)
  uuids : nat;            (* evaluations of uuid.uuid4() so far *)
  outbox : list Payload   (* bodies posted to /api/chat so far, oldest first *)
}.

Definition M (A : Type) : Type := World -> outcome A * World.

Definition ret {A} (a : A) : M A := fun w => (Return a, w).
Definition raise {A} (e : exn) : M A := fun w => (Raise e, w).
Definition bind {A B} (m : M A) (k : A -> M B) : M B :=
  fun w =>
    match m w with
    | (Return a, w') => k a w'
    | (Raise e, w') => (Raise e, w')
    end.
Definition lift {A} (o : outcome A) : M A := fun w => (o, w).

(** [try: m  except ...: h e] *)
Definition try_except {A} (m : M A) (h : exn -> M A) : M A :=
  fun w =>
    match m w with
    | (Return a, w') => (Return a, w')
    | (Raise e, w') => h e w'
    end.

Declare Scope relay_scope.
Delimit Scope relay_scope with relay.
Notation "x <- m ;; k" := (bind m (fun x => k))
  (at level 61, m at next level, right associativity) : relay_scope.
Notation "m ;;; k" := (bind m (fun _ => k))
  (at level 61, right associativity) : relay_scope.
Local Open Scope relay_scope.

Definition set_sessions (d : dict Session) (w : World) : World :=
  mkWorld d (ticks w) (uuids w) (outbox w).

Definition sessions_contains (session_id : string) : M bool :=
  fun w => (Return (dict_contains session_id (chat_sessions w)), w).

(** [chat_sessions[session_id]] *)
Definition sessions_getitem (session_id : string) : M Session :=
  fun w =>
    match dict_getitem session_id (chat_sessions w) with
    | Some s => (Return s, w)
    | None => (Raise (KeyError session_id), w)
    end.

(** [session["messages"].append(m)] on the entry stored under [session_id] *)
Definition append_message (m : Message) (s : Session) : Session :=
  mkSession (model s) (messages s ++ [m]) (created_at s) (last_updated s).

(** [session["last_updated"] = t] *)
Definition set_last_updated (t : Z) (s : Session) : Session :=
  mkSession (model s) (messages s) (created_at s) t.

Definition session_mutate (session_id : string) (f : Session -> Session) : M unit :=
  fun w => (Return tt, set_sessions (dict_update session_id f (chat_sessions w)) w).

(** ** A concrete environment, to run the handlers on examples *)

Module Scenario.

(** The clock reads 100, 101, 102, ... *)
Definition clock (n : nat) : Z := 100 + Z.of_nat n.

Fixpoint digits (n : nat) : string :=
  match n with
  | O => ""
  | S k => "1" ++ digits k
  end.

(** Identifiers "id-1", "id-11", "id-111", ...: pairwise distinct. *)
Definition uuid4 (n : nat) : string := "id-" ++ digits (S n).

(** A decoder defined on the few lines the examples use; every other
    line is rejected. *)
Definition json_loads (line : string) : option json :=
  if String.eqb line "hello"
  then Some (JObj [("message", JObj [("role", JStr "assistant");
                                     ("content", JStr "hello")])])
  else if String.eqb line "hel"
  then Some (JObj [("message", JObj [("content", JStr "hel")]);
                   ("done", JBool false)])
  else if String.eqb line "lo"
  then Some (JObj [("message", JObj [("content", JStr "lo")]);
                   ("done", JBool false)])
  else if String.eqb line "lo."
  then Some (JObj [("message", JObj [("content", JStr "lo")]);
                   ("done", JBool true)])
  else if String.eqb line "tags"
  then Some (JObj [("models", JArr [JObj [("name", JStr "m1")]])])
  else None.

(** [str(e)]: an [HTTPException] prints as its status, a colon and its
    detail. *)
Definition exc_str (e : exn) : string :=
  match e with
  | HTTPException status_code detail =>
      NilZero.string_of_int (Z.to_int status_code) ++ ": " ++ detail
  | KeyError key => key
  | _ => ""
  end.

Definition coerce_str (v : json) : option string := None.

(** A store holding one session "s1" bound to model "m1". *)
Definition one_session : World :=
  mkWorld [("s1", mkSession "m1" [] 10 10)] 0 0 [].

Definition empty_world : World := mkWorld [] 0 0 [].

Definition says_hello (p : Payload) : Reply := Success "hello".

Definition streams_hello (p : Payload) : StreamReply :=
  Lines ["hel"; "lo."] false.

Definition stream_breaks (p : Payload) : StreamReply :=
  Lines ["hel"; "??"; "lo"] true.

(** Two sessions, the second one updated later than the first. *)
Definition two_sessions : World :=
  mkWorld [("s1", mkSession "m1" [] 10 10); ("s2", mkSession "m1" [] 20 30)]
    0 0 [].

Definition coerce_int (v : json) : option Z := None.

Definition coerce_dict (v : json) : option (dict json) := None.

(** The decoder above, extended by a chat reply whose content is null and
    by an answer of /api/tags that describes two models, the first with a
    further key and null details, the second with its keys in another
    order. *)
Definition json_loads_more (text : string) : option json :=
  if String.eqb text "null reply"
  then Some (JObj [("message", JObj [("content", JNull)])])
  else if String.eqb text "two models"
  then Some (JObj [("models",
                    JArr [JObj [("name", JStr "m1");
                                ("model", JStr "m1");
                                ("modified_at", JStr "2024-01-01");
                                ("size", JNum 42);
                                ("digest", JStr "abc");
                                ("details", JNull)];
                          JObj [("details", JObj [("family", JStr "llama")]);
                                ("digest", JStr "def");
                                ("size", JNum 7);
                                ("modified_at", JStr "2024-02-02");
                                ("name", JStr "m2")]])])
  else json_loads text.


Definition says_null (p : Payload) : Reply := Success "null reply".

Definition cannot_stream (p : Payload) : StreamReply := StreamUnreachable.

Definition is_down (p : Payload) : Reply := Unreachable.

End Scenario.

Section Relay.

(** The environment of the process and the library functions whose result
    the handlers only pass along. *)
Variable clock : nat -> Z.                    (* n-th value of datetime.now() *)
Variable uuid4 : nat -> string.               (* n-th value of str(uuid.uuid4()) *)
Variable json_loads : string -> option json.  (* json.loads; None is JSONDecodeError *)
Variable exc_str : exn -> string.             (* str(e) *)
Variable coerce_str : json -> option string.  (* pydantic's reading of a non-str
                                                 value in a str field *)
Variable coerce_int : json -> option Z.       (* the same for a value that is no
                                                 number in an int field *)
Variable coerce_dict : json -> option (dict json).
                                              (* the same for a value that is
                                                 neither null nor an object in
                                                 an Optional[Dict] field *)

Definition now : M Z :=
  fun w => (Return (clock (ticks w)),
            mkWorld (chat_sessions w) (S (ticks w)) (uuids w) (outbox w)).

Definition new_uuid : M string :=
  fun w => (Return (uuid4 (uuids w)),
            mkWorld (chat_sessions w) (ticks w) (S (uuids w)) (outbox w)).

(** [json.loads] and [response.json()] *)
Definition loads (text : string) : outcome json :=
  match json_loads text with
  | Some v => Return v
  | None => Raise JSONDecodeError
  end.

(** [create_session] *)
Definition create_session (model : string) : M string :=
  session_id <- new_uuid ;;
  created <- now ;;
  updated <- now ;;
  (fun w => (Return tt,
             set_sessions
               (dict_setitem session_id (mkSession model [] created updated)
                  (chat_sessions w)) w)) ;;;
  ret session_id.

(** [get_session_messages] *)
Definition get_session_messages (session_id : string) : M (list OllamaMessage) :=
  fun w =>
    match dict_getitem session_id (chat_sessions w) with
    | None => (Return [], w)
    | Some s => (Return (map (fun msg => (role msg, content msg)) (messages s)), w)
    end.

(** [request.session_id or create_session(request.model)] *)
Definition session_id_or_create (request : ChatRequest) : M string :=
  if opt_truthy (req_session_id request)
  then ret (match req_session_id request with Some s => s | None => "" end)
  else create_session (req_model request).

(** [messages.insert(0, {"role": "system", ...})] under [if request.system_prompt] *)
Definition with_system_prompt (system_prompt : option string)
    (messages : list OllamaMessage) : list OllamaMessage :=
  if opt_truthy system_prompt
  then ("system", JStr (match system_prompt with Some s => s | None => "" end))
         :: messages
  else messages.

(** [client.post("/api/chat", json=payload)] then [raise_for_status()];
    the result is the text of the response. *)
Definition client_post (ollama : Payload -> Reply) (payload : Payload) : M string :=
  fun w =>
    let w' := mkWorld (chat_sessions w) (ticks w) (uuids w) (outbox w ++ [payload]) in
    match ollama payload with
    | Unreachable => (Raise RequestError, w')
    | ErrorStatus code text => (Raise (HTTPStatusError code text), w')
    | Success text => (Return text, w')
    end.

(** [ChatResponse(response=..., session_id=..., model=..., timestamp=...)]:
    the [response] field is declared [str]. *)
Definition ChatResponse_init (response : json) (session_id model : string)
    (timestamp : Z) : outcome ChatResponse :=
  match response with
  | JStr s => Return (mkChatResponse s session_id model timestamp)
  | v =>
      match coerce_str v with
      | Some s => Return (mkChatResponse s session_id model timestamp)
      | None => Raise ValidationError
      end
  end.

(** [data = response.json()] then [data["message"]["content"]] *)
Definition message_content (text : string) : outcome json :=
  match loads text with
  | Raise e => Raise e
  | Return data =>
      match py_getitem data "message" with
      | Raise e => Raise e
      | Return message => py_getitem message "content"
      end
  end.

(** The body of the [try] block of [chat_with_model]. *)
Definition chat_with_model_body (ollama : Payload -> Reply)
    (request : ChatRequest) : M ChatResponse :=
  session_id <- session_id_or_create request ;;
  present <- sessions_contains session_id ;;
  if negb present then raise (HTTPException 404 "Session not found") else
  session <- sessions_getitem session_id ;;
  if negb (String.eqb (model session) (req_model request))
  then raise (HTTPException 400 "Model mismatch with session") else
  t_user <- now ;;
  session_mutate session_id
    (append_message (mkMessage "user" (JStr (req_message request)) t_user)) ;;;
  stored <- get_session_messages session_id ;;
  let messages := with_system_prompt (req_system_prompt request) stored in
  text <- client_post ollama (mkPayload (req_model request) messages false) ;;
  assistant_content <- lift (message_content text) ;;
  t_assistant <- now ;;
  session_mutate session_id
    (append_message (mkMessage "assistant" assistant_content t_assistant)) ;;;
  t_updated <- now ;;
  session_mutate session_id (set_last_updated t_updated) ;;;
  t_response <- now ;;
  lift (ChatResponse_init assistant_content session_id (req_model request)
          t_response).

(** The [except] clauses of [chat_with_model], tried in order. *)
Definition chat_with_model_except (e : exn) : M ChatResponse :=
  match e with
  | RequestError => raise (HTTPException 503 "Ollama server is not available")
  | HTTPStatusError code text =>
      raise (HTTPException code ("Ollama error: " ++ text))
  | e => raise (HTTPException 500 ("Chat error: " ++ exc_str e))
  end.

(** [chat_with_model]: POST /api/chat *)
Definition chat_with_model (ollama : Payload -> Reply)
    (request : ChatRequest) : M ChatResponse :=
  try_except (chat_with_model_body ollama request) chat_with_model_except.

(** What the closure [generate] captures from [chat_stream]: [session_id],
    [request.model] and [messages] (and the alias [session], which is the
    entry under [session_id]). *)
Record Generator : Type := mkGenerator {
  gen_session_id : string;
  gen_model : string;
  gen_messages : list OllamaMessage
}.

(** The body of the [try] block of [chat_stream]; the answer is the
    [StreamingResponse] wrapping the generator, which has not run yet. *)
Definition chat_stream_body (request : ChatRequest) : M Generator :=
  session_id <- session_id_or_create request ;;
  present <- sessions_contains session_id ;;
  if negb present then raise (HTTPException 404 "Session not found") else
  session <- sessions_getitem session_id ;;
  t_user <- now ;;
  session_mutate session_id
    (append_message (mkMessage "user" (JStr (req_message request)) t_user)) ;;;
  stored <- get_session_messages session_id ;;
  let messages := with_system_prompt (req_system_prompt request) stored in
  ret (mkGenerator session_id (req_model request) messages).

(** [chat_stream]: POST /api/chat/stream *)
Definition chat_stream (request : ChatRequest) : M Generator :=
  try_except (chat_stream_body request)
    (fun e => raise (HTTPException 500 ("Streaming error: " ++ exc_str e))).

(** [if "message" in data and "content" in data["message"]:
       content = data["message"]["content"]] *)
Definition read_content (data : json) : outcome (option json) :=
  match py_in "message" data with
  | Raise e => Raise e
  | Return false => Return None
  | Return true =>
      match py_getitem data "message" with
      | Raise e => Raise e
      | Return message =>
          match py_in "content" message with
          | Raise e => Raise e
          | Return false => Return None
          | Return true =>
              match py_getitem message "content" with
              | Raise e => Raise e
              | Return content => Return (Some content)
              end
          end
      end
  end.

(** How one pass through the body of the [async for] loop ends. *)
Inductive flow : Type :=
| Next
| Break
| Exc (e : exn).

(** The assistant message and timestamp written when [done] is seen. *)
Definition commit_response (session_id full_response : string) : M unit :=
  t_assistant <- now ;;
  session_mutate session_id
    (append_message (mkMessage "assistant" (JStr full_response) t_assistant)) ;;;
  t_updated <- now ;;
  session_mutate session_id (set_last_updated t_updated).

(** The statements under [try:] for one non-empty line: the chunks yielded,
    the new value of [full_response], how the pass ended, the new world. *)
Definition line_body (session_id line full_response : string) (w : World)
    : (list Chunk * string * flow) * World :=
  match loads line with
  | Raise e => (([], full_response, Exc e), w)
  | Return data =>
      match read_content data with
      | Raise e => (([], full_response, Exc e), w)
      | Return found =>
          let added :=
            match found with
            | None => Return ([], full_response)
            | Some (JStr s) =>
                Return ([ContentChunk s session_id], (full_response ++ s)%string)
            | Some _ => Raise TypeError  (* str += a value that is no str *)
            end in
          match added with
          | Raise e => (([], full_response, Exc e), w)
          | Return (chunks, full') =>
              match py_get data "done" (JBool false) with
              | Raise e => ((chunks, full', Exc e), w)
              | Return done =>
                  if py_truthy done
                  then ((chunks ++ [DoneChunk session_id], full', Break),
                        snd (commit_response session_id full' w))
                  else ((chunks, full', Next), w)
              end
          end
      end
  end.

(** The [async for line in response.aiter_lines()] loop: the chunks yielded
    and the exception that ended the generator, if any. *)
Fixpoint generate_loop (session_id : string) (lines : list string)
    (dropped : bool) (full_response : string) (w : World)
    : (list Chunk * option exn) * World :=
  match lines with
  | [] => (([], if dropped then Some RequestError else None), w)
  | line :: rest =>
      if String.eqb line ""
      then generate_loop session_id rest dropped full_response w
      else
        match line_body session_id line full_response w with
        | ((chunks, full', fl), w') =>
            match fl with
            | Break => ((chunks, None), w')
            | Exc JSONDecodeError | Next =>
                match generate_loop session_id rest dropped full' w' with
                | ((more, e), w'') => ((chunks ++ more, e), w'')
                end
            | Exc e => ((chunks, Some e), w')
            end
        end
  end.

(** [generate], run to its end. *)
Definition generate (ollama : Payload -> StreamReply) (g : Generator)
    (w : World) : (list Chunk * option exn) * World :=
  let payload := mkPayload (gen_model g) (gen_messages g) true in
  let w' := mkWorld (chat_sessions w) (ticks w) (uuids w) (outbox w ++ [payload]) in
  match ollama payload with
  | StreamUnreachable => (([], Some RequestError), w')
  | StreamErrorStatus code text => (([], Some (HTTPStatusError code text)), w')
  | Lines ls dropped => generate_loop (gen_session_id g) ls dropped "" w'
  end.

(** A streaming turn: the handler, then the server draining the generator. *)
Definition stream_turn (ollama : Payload -> StreamReply) (request : ChatRequest)
    (w : World) : outcome (list Chunk * option exn) * World :=
  match chat_stream request w with
  | (Return g, w') =>
      match generate ollama g w' with
      | (r, w'') => (Return r, w'')
      end
  | (Raise e, w') => (Raise e, w')
  end.

(** [sorted(sessions, key=lambda x: x.last_updated, reverse=True)]: a
    stable sort, so entries with equal keys keep their relative order. *)
Fixpoint insert_desc (x : SessionInfo) (l : list SessionInfo) : list SessionInfo :=
  match l with
  | [] => [x]
  | y :: l' =>
      if info_last_updated y <=? info_last_updated x
      then x :: y :: l'
      else y :: insert_desc x l'
  end.

Definition sorted_desc (l : list SessionInfo) : list SessionInfo :=
  fold_right insert_desc [] l.

Definition session_info (item : string * Session) : SessionInfo :=
  mkSessionInfo (fst item) (model (snd item)) (created_at (snd item))
    (last_updated (snd item)) (List.length (messages (snd item))).

(** [list_sessions]: GET /api/sessions *)
Definition list_sessions : M (list SessionInfo) :=
  fun w => (Return (sorted_desc (map session_info (chat_sessions w))), w).

(** [get_session]: GET /api/sessions/{session_id} *)
Definition get_session (session_id : string) : M SessionDetails :=
  present <- sessions_contains session_id ;;
  if negb present then raise (HTTPException 404 "Session not found") else
  session <- sessions_getitem session_id ;;
  ret (mkSessionDetails session_id (model session) (created_at session)
         (last_updated session) (messages session)).

(** [delete_session]: DELETE /api/sessions/{session_id} *)
Definition delete_session (session_id : string) : M string :=
  present <- sessions_contains session_id ;;
  if negb present then raise (HTTPException 404 "Session not found") else
  (fun w => (Return tt,
             set_sessions (dict_delitem session_id (chat_sessions w)) w)) ;;;
  ret "Session deleted successfully".

(** [[m["name"] for m in models]] *)
Fixpoint model_names (models : list json) : outcome (list json) :=
  match models with
  | [] => Return []
  | m :: rest =>
      match py_getitem m "name" with
      | Raise e => Raise e
      | Return name =>
          match model_names rest with
          | Raise e => Raise e
          | Return names => Return (name :: names)
          end
      end
  end.

(** The body of the [try] block of [create_new_session]; [tags] is what
    the client observes for GET /api/tags. *)
Definition create_new_session_body (tags : Reply) (model : string)
    : M (string * string * Z) :=
  text <- lift (match tags with
                | Unreachable => Raise RequestError
                | ErrorStatus code text => Raise (HTTPStatusError code text)
                | Success text => Return text
                end) ;;
  data <- lift (loads text) ;;
  models <- lift (py_get data "models" (JArr [])) ;;
  items <- lift (py_iter models) ;;
  available_models <- lift (model_names items) ;;
  if negb (existsb (is_JStr model) available_models)
  then raise (HTTPException 400 ("Model '" ++ model ++ "' not available")) else
  session_id <- create_session model ;;
  session <- sessions_getitem session_id ;;
  ret (session_id, model, created_at session).

(** [create_new_session]: POST /api/sessions *)
Definition create_new_session (tags : Reply) (model : string)
    : M (string * string * Z) :=
  try_except (create_new_session_body tags model)
    (fun e =>
       match e with
       | RequestError => raise (HTTPException 503 "Ollama server is not available")
       | e => raise e
       end).

(** The status the framework answers with: that of an [HTTPException],
    500 for any other exception leaving the handler, 200 otherwise. *)
Definition http_status {A} (o : outcome A) : Z :=
  match o with
  | Return _ => 200
  | Raise (HTTPException code _) => code
  | Raise _ => 500
  end.

(** [root]: GET /api/ *)
Definition root : M string := ret "Ollama Chat API is running".

(** One entry of the answer of [list_models]. *)
Record ModelInfo : Type := mkModelInfo {
  name : string;
  modified_at : string;
  size : Z;
  digest : string;
  details : option (dict json)
}.

(** [client.get("/api/tags")] then [raise_for_status()]: the text of the
    response, as in [client_post]. *)
Definition client_get (tags : Reply) : outcome string :=
  match tags with
  | Unreachable => Raise RequestError
  | ErrorStatus code text => Raise (HTTPStatusError code text)
  | Success text => Return text
  end.

(** pydantic's validation of a [str], an [int] and an
    [Optional[Dict[str, Any]]] field. *)
Definition str_field (v : json) : option string :=
  match v with
  | JStr s => Some s
  | v => coerce_str v
  end.

Definition int_field (v : json) : option Z :=
  match v with
  | JNum n => Some n
  | v => coerce_int v
  end.

Definition dict_field (v : json) : option (option (dict json)) :=
  match v with
  | JNull => Some None
  | JObj kvs => Some (Some kvs)
  | v => option_map Some (coerce_dict v)
  end.

(** [ModelInfo(name=..., modified_at=..., size=..., digest=..., details=...)] *)
Definition ModelInfo_init (v_name v_modified_at v_size v_digest v_details : json)
    : outcome ModelInfo :=
  match str_field v_name, str_field v_modified_at, int_field v_size,
        str_field v_digest, dict_field v_details with
  | Some n, Some m, Some s, Some d, Some dt => Return (mkModelInfo n m s d dt)
  | _, _, _, _, _ => Raise ValidationError
  end.

(** The body of the [for model in ...] loop of [list_models]. *)
Definition model_info (model : json) : outcome ModelInfo :=
  match py_getitem model "name" with
  | Raise e => Raise e
  | Return v_name =>
  match py_getitem model "modified_at" with
  | Raise e => Raise e
  | Return v_modified_at =>
  match py_getitem model "size" with
  | Raise e => Raise e
  | Return v_size =>
  match py_getitem model "digest" with
  | Raise e => Raise e
  | Return v_digest =>
  match py_get model "details" JNull with
  | Raise e => Raise e
  | Return v_details =>
      ModelInfo_init v_name v_modified_at v_size v_digest v_details
  end end end end end.

Fixpoint model_infos (models : list json) : outcome (list ModelInfo) :=
  match models with
  | [] => Return []
  | model :: rest =>
      match model_info model with
      | Raise e => Raise e
      | Return info =>
          match model_infos rest with
          | Raise e => Raise e
          | Return infos => Return (info :: infos)
          end
      end
  end.

(** [list_models]: GET /api/models *)
Definition list_models (tags : Reply) : M (list ModelInfo) :=
  try_except
    (text <- lift (client_get tags) ;;
     data <- lift (loads text) ;;
     models <- lift (py_get data "models" (JArr [])) ;;
     items <- lift (py_iter models) ;;
     lift (model_infos items))
    (fun e =>
       match e with
       | RequestError => raise (HTTPException 503 "Ollama server is not available")
       | e => raise (HTTPException 500 ("Error fetching models: " ++ exc_str e))
       end).

(** [health_check]: GET /api/health; the answer is the pair of the values
    under the keys status and ollama. *)
Definition health_check (tags : Reply) : M (string * string) :=
  try_except
    (text <- lift (client_get tags) ;;
     ret ("healthy", "connected"))
    (fun e =>
       match e with
       | RequestError => ret ("unhealthy", "disconnected")
       | e => raise e
       end).

(** ** Vocabulary of the properties *)

(** An exception raised by the interpreter or by a library other than the
    HTTP client and the web framework. *)
Definition plain_exn (e : exn) : Prop :=
  match e with
  | HTTPException _ _ | RequestError | HTTPStatusError _ _ => False
  | _ => True
  end.

(** The times of a session are in order: the creation time, then the
    timestamps of the messages along the history, all of them at most
    [bound]; and [last_updated] lies between the creation time and
    [bound]. *)
Definition chronological (bound : Z) (s : Session) : Prop :=
  StronglySorted Z.le (created_at s :: map timestamp (messages s) ++ [bound]) /\
  created_at s <= last_updated s <= bound.

(** Every stored session is chronological up to the next reading of the
    clock. *)
Definition timely (w : World) : Prop :=
  Forall (fun item => chronological (clock (ticks w)) (snd item))
    (chat_sessions w).

(** The object [entry] of /api/tags describes [info]: under the keys name,
    modified_at, size and digest it has the strings and the number of
    [info], and its details entry is absent or null when [info] has no
    details and is the object of [info]'s details otherwise.  The object
    may have further keys, and its keys may come in any order. *)
Definition describes (entry : json) (info : ModelInfo) : Prop :=
  exists kvs,
    entry = JObj kvs /\
    dict_getitem "name" kvs = Some (JStr (name info)) /\
    dict_getitem "modified_at" kvs = Some (JStr (modified_at info)) /\
    dict_getitem "size" kvs = Some (JNum (size info)) /\
    dict_getitem "digest" kvs = Some (JStr (digest info)) /\
    match dict_getitem "details" kvs with
    | None | Some JNull => details info = None
    | Some (JObj d) => details info = Some d
    | Some _ => False
    end.











(** The text carried by the content chunks of a stream, in order. *)
Fixpoint fragments (chunks : list Chunk) : string :=
  match chunks with
  | [] => ""
  | ContentChunk s _ :: rest => (s ++ fragments rest)%string
  | DoneChunk _ :: rest => fragments rest
  end.

(** Every chunk is a content chunk for this session. *)
Definition content_only (session_id : string) (chunks : list Chunk) : Prop :=
  forall c, In c chunks -> exists s, c = ContentChunk s session_id.

(** The line is a record whose completion flag is true: it is read by the
    loop, decodes, and [data.get("done", False)] is true. *)
Definition done_record (line : string) : bool :=
  negb (String.eqb line "") &&
  match json_loads line with
  | Some data =>
      match py_get data "done" (JBool false) with
      | Return done => py_truthy done
      | Raise _ => false
      end
  | None => false
  end.

(** The backend's stream ends, by failure or by exhaustion, without having
    delivered a record whose completion flag is true. *)
Definition ends_before_done (r : StreamReply) : bool :=
  match r with
  | StreamUnreachable => true
  | StreamErrorStatus _ _ => true
  | Lines ls _ => forallb (fun line => negb (done_record line)) ls
  end.

(** Every assistant message comes right after a user message. *)
Definition assistant_follows_user (msgs : list Message) : Prop :=
  forall before m after,
    msgs = before ++ m :: after -> role m = "assistant" ->
    exists earlier u, before = earlier ++ [u] /\ role u = "user".

(** In [out], [a] occurs at an earlier position than [b]. *)
Definition before_in {A} (a b : A) (out : list A) : Prop :=
  exists l1 l2 l3, out = l1 ++ a :: l2 ++ b :: l3.

(** The operations of the service, each run to its end. *)
Inductive op : Type :=
| OpChat (ollama : Payload -> Reply) (request : ChatRequest)
| OpStream (ollama : Payload -> StreamReply) (request : ChatRequest)
| OpList
| OpGet (session_id : string)
| OpDelete (session_id : string)
| OpCreate (tags : Reply) (model : string).

Definition run_op (o : op) (w : World) : World :=
  match o with
  | OpChat ollama request => snd (chat_with_model ollama request w)
  | OpStream ollama request => snd (stream_turn ollama request w)
  | OpList => snd (list_sessions w)
  | OpGet session_id => snd (get_session session_id w)
  | OpDelete session_id => snd (delete_session session_id w)
  | OpCreate tags model => snd (create_new_session tags model w)
  end.

Definition run (ops : list op) (w : World) : World :=
  fold_left (fun w o => run_op o w) ops w.

(** The process right after start-up. *)
Definition initial_world : World := mkWorld [] 0 0 [].

(** [s'] is a later state of the session [s]: same model, same creation
    time, a history that extends the one of [s]. *)
Definition later_session (s s' : Session) : Prop :=
  model s' = model s /\ created_at s' = created_at s /\
  exists tail, messages s' = messages s ++ tail.

(** The dictionary has unique keys, all of them generated identifiers, and
    every history has its assistant messages right after user messages. *)
Definition store_ok (w : World) : Prop :=
  NoDup (dict_keys (chat_sessions w)) /\
  (forall sid, In sid (dict_keys (chat_sessions w)) ->
               exists k, (k < uuids w)%nat /\ uuid4 k = sid) /\
  (forall sid s, dict_getitem sid (chat_sessions w) = Some s ->
                 assistant_follows_user (messages s)).

(** [w'] is reached from [w]: no identifier is generated twice, a session
    that is gone stays gone, a session still stored is a later state. *)
Definition follows (w w' : World) : Prop :=
  (uuids w <= uuids w')%nat /\
  (forall k, (k < uuids w)%nat ->
             dict_getitem (uuid4 k) (chat_sessions w) = None ->
             dict_getitem (uuid4 k) (chat_sessions w') = None) /\
  (forall sid s s',
      dict_getitem sid (chat_sessions w) = Some s ->
      dict_getitem sid (chat_sessions w') = Some s' ->
      later_session s s').

(** A step from [w] to [w'] that keeps the store well formed and removes
    no session. *)
Definition keeps_sessions (w w' : World) : Prop :=
  store_ok w' /\ follows w w' /\
  forall sid s, dict_getitem sid (chat_sessions w) = Some s ->
                dict_getitem sid (chat_sessions w') <> None.

(** ** Dictionary lemmas *)

Lemma contains_getitem V (k : string) (d : dict V) :
  dict_contains k d = match dict_getitem k d with Some _ => true | None => false end.
Proof.
  induction d as [|[k' v] d IH]; simpl; [reflexivity|].
  destruct (String.eqb k k'); auto.
Qed.

Lemma getitem_update V (k k' : string) (f : V -> V) (d : dict V) :
  dict_getitem k' (dict_update k f d) =
  if String.eqb k k' then option_map f (dict_getitem k' d) else dict_getitem k' d.
Proof.
  induction d as [|[k0 v] d IH]; simpl.
  - destruct (String.eqb k k'); reflexivity.
  - destruct (String.eqb k k0) eqn:E0; simpl.
    + apply String.eqb_eq in E0; subst k0.
      rewrite (String.eqb_sym k' k).
      destruct (String.eqb k k'); reflexivity.
    + destruct (String.eqb k' k0) eqn:E1.
      * apply String.eqb_eq in E1; subst k0. rewrite E0. reflexivity.
      * exact IH.
Qed.

Lemma getitem_setitem V (k k' : string) (v : V) (d : dict V) :
  dict_getitem k' (dict_setitem k v d) =
  if String.eqb k k' then Some v else dict_getitem k' d.
Proof.
  induction d as [|[k0 v0] d IH]; simpl.
  - rewrite (String.eqb_sym k' k). destruct (String.eqb k k'); reflexivity.
  - destruct (String.eqb k k0) eqn:E0; simpl.
    + apply String.eqb_eq in E0; subst k0.
      rewrite (String.eqb_sym k' k).
      destruct (String.eqb k k'); reflexivity.
    + destruct (String.eqb k' k0) eqn:E1.
      * apply String.eqb_eq in E1; subst k0. rewrite E0. reflexivity.
      * exact IH.
Qed.

Lemma keys_update V (k : string) (f : V -> V) (d : dict V) :
  dict_keys (dict_update k f d) = dict_keys d.
Proof.
  induction d as [|[k0 v] d IH]; simpl; [reflexivity|].
  destruct (String.eqb k k0); simpl; [reflexivity|].
  f_equal. exact IH.
Qed.

Lemma getitem_in_keys V (k : string) (d : dict V) :
  dict_getitem k d = None <-> ~ In k (dict_keys d).
Proof.
  induction d as [|[k0 v] d IH]; simpl.
  - split; [intros _ []|reflexivity].
  - destruct (String.eqb k k0) eqn:E.
    + apply String.eqb_eq in E. subst. split; [discriminate|]. intros H. elim H. auto.
    + apply String.eqb_neq in E. rewrite IH. split.
      * intros H [H1|H1]; [congruence | auto].
      * intros H H1. apply H. auto.
Qed.

Lemma getitem_delitem V (k k' : string) (d : dict V) :
  NoDup (dict_keys d) ->
  dict_getitem k' (dict_delitem k d) =
  if String.eqb k k' then None else dict_getitem k' d.
Proof.
  induction d as [|[k0 v] d IH]; simpl; intros ND.
  - destruct (String.eqb k k'); reflexivity.
  - inversion ND as [|? ? Hnin ND']; subst.
    destruct (String.eqb k k0) eqn:E0; simpl.
    + apply String.eqb_eq in E0; subst k0.
      rewrite (String.eqb_sym k' k).
      destruct (String.eqb k k') eqn:E; [|reflexivity].
      apply String.eqb_eq in E; subst k'.
      apply getitem_in_keys. exact Hnin.
    + destruct (String.eqb k' k0) eqn:E1.
      * apply String.eqb_eq in E1; subst k0. rewrite E0. reflexivity.
      * apply IH. exact ND'.
Qed.

(** ** The phases of a turn *)

Ltac unfold_monad :=
  unfold try_except, bind, ret, raise, lift, sessions_contains,
    sessions_getitem, session_mutate, set_sessions, now, new_uuid in *.

Lemma create_session_run (m : string) (w : World) :
  create_session m w =
  (Return (uuid4 (uuids w)),
   mkWorld
     (dict_setitem (uuid4 (uuids w))
        (mkSession m [] (clock (ticks w)) (clock (S (ticks w))))
        (chat_sessions w))
     (S (S (ticks w))) (S (uuids w)) (outbox w)).
Proof. reflexivity. Qed.

(** Resolving never fails, leaves every stored session other than a newly
    created one as it was, and does not post anything. *)
Lemma session_id_or_create_run (request : ChatRequest) (w : World) :
  exists sid w0, session_id_or_create request w = (Return sid, w0).
Proof.
  unfold session_id_or_create.
  destruct (opt_truthy (req_session_id request)).
  - eexists _, _. reflexivity.
  - rewrite create_session_run. eexists _, _. reflexivity.
Qed.

Lemma session_id_or_create_given (request : ChatRequest) (sid : string) (w : World) :
  req_session_id request = Some sid -> sid <> "" ->
  session_id_or_create request w = (Return sid, w).
Proof.
  intros E Hne. unfold session_id_or_create. rewrite E. simpl.
  apply String.eqb_neq in Hne. rewrite Hne. reflexivity.
Qed.

(** The world once the user message is stored. *)
Lemma chat_stream_resolved (request : ChatRequest) (w w0 : World)
    (sid : string) (s0 : Session) :
  session_id_or_create request w = (Return sid, w0) ->
  dict_getitem sid (chat_sessions w0) = Some s0 ->
  let user := mkMessage "user" (JStr (req_message request)) (clock (ticks w0)) in
  chat_stream request w =
  (Return (mkGenerator sid (req_model request)
             (with_system_prompt (req_system_prompt request)
                (map (fun msg => (role msg, content msg)) (messages s0 ++ [user])))),
   mkWorld (dict_update sid (append_message user) (chat_sessions w0))
     (S (ticks w0)) (uuids w0) (outbox w0)).
Proof.
  intros Hres Hget user.
  unfold chat_stream, chat_stream_body, get_session_messages.
  unfold_monad. rewrite Hres. simpl.
  rewrite contains_getitem, Hget. simpl. rewrite Hget. simpl.
  rewrite getitem_update, String.eqb_refl, Hget. simpl.
  reflexivity.
Qed.

Lemma chat_with_model_resolved (ollama : Payload -> Reply)
    (request : ChatRequest) (w w0 : World) (sid : string) (s0 : Session) :
  session_id_or_create request w = (Return sid, w0) ->
  dict_getitem sid (chat_sessions w0) = Some s0 ->
  model s0 = req_model request ->
  let user := mkMessage "user" (JStr (req_message request)) (clock (ticks w0)) in
  let payload :=
    mkPayload (req_model request)
      (with_system_prompt (req_system_prompt request)
         (map (fun msg => (role msg, content msg)) (messages s0 ++ [user])))
      false in
  let w1 :=
    mkWorld (dict_update sid (append_message user) (chat_sessions w0))
      (S (ticks w0)) (uuids w0) (outbox w0 ++ [payload]) in
  chat_with_model ollama request w =
  match ollama payload with
  | Unreachable =>
      (Raise (HTTPException 503 "Ollama server is not available"), w1)
  | ErrorStatus code text =>
      (Raise (HTTPException code ("Ollama error: " ++ text)), w1)
  | Success text =>
      match message_content text with
      | Raise e => chat_with_model_except e w1
      | Return c =>
          let assistant := mkMessage "assistant" c (clock (S (ticks w0))) in
          let w2 :=
            mkWorld
              (dict_update sid (set_last_updated (clock (S (S (ticks w0)))))
                 (dict_update sid (append_message assistant) (chat_sessions w1)))
              (S (S (S (S (ticks w0))))) (uuids w0) (outbox w1) in
          match ChatResponse_init c sid (req_model request)
                  (clock (S (S (S (ticks w0))))) with
          | Return r => (Return r, w2)
          | Raise e => chat_with_model_except e w2
          end
      end
  end.
Proof.
  intros Hres Hget Hmodel user payload w1.
  unfold chat_with_model, chat_with_model_body, get_session_messages, client_post.
  unfold_monad. rewrite Hres. simpl.
  rewrite contains_getitem, Hget. simpl. rewrite Hget. simpl.
  rewrite Hmodel, String.eqb_refl. simpl.
  rewrite getitem_update, String.eqb_refl, Hget. simpl.
  fold user. fold payload.
  destruct (ollama payload) as [|code text|text]; try reflexivity.
  simpl. destruct (message_content text) as [c|e]; [|reflexivity].
  simpl. destruct (ChatResponse_init _ _ _ _); reflexivity.
Qed.

Lemma chat_with_model_unknown (ollama : Payload -> Reply)
    (request : ChatRequest) (w w0 : World) (sid : string) :
  session_id_or_create request w = (Return sid, w0) ->
  dict_getitem sid (chat_sessions w0) = None ->
  chat_with_model ollama request w =
  (Raise (HTTPException 500
            ("Chat error: " ++ exc_str (HTTPException 404 "Session not found"))),
   w0).
Proof.
  intros Hres Hget.
  unfold chat_with_model, chat_with_model_body. unfold_monad.
  rewrite Hres. simpl. rewrite contains_getitem, Hget. reflexivity.
Qed.

Lemma chat_with_model_mismatch (ollama : Payload -> Reply)
    (request : ChatRequest) (w w0 : World) (sid : string) (s0 : Session) :
  session_id_or_create request w = (Return sid, w0) ->
  dict_getitem sid (chat_sessions w0) = Some s0 ->
  model s0 <> req_model request ->
  chat_with_model ollama request w =
  (Raise (HTTPException 500
            ("Chat error: "
             ++ exc_str (HTTPException 400 "Model mismatch with session"))),
   w0).
Proof.
  intros Hres Hget Hmodel.
  unfold chat_with_model, chat_with_model_body. unfold_monad.
  rewrite Hres. simpl. rewrite contains_getitem, Hget. simpl. rewrite Hget. simpl.
  apply String.eqb_neq in Hmodel. rewrite Hmodel. reflexivity.
Qed.

Lemma chat_stream_unknown (request : ChatRequest) (w w0 : World) (sid : string) :
  session_id_or_create request w = (Return sid, w0) ->
  dict_getitem sid (chat_sessions w0) = None ->
  chat_stream request w =
  (Raise (HTTPException 500
            ("Streaming error: " ++ exc_str (HTTPException 404 "Session not found"))),
   w0).
Proof.
  intros Hres Hget.
  unfold chat_stream, chat_stream_body. unfold_monad.
  rewrite Hres. simpl. rewrite contains_getitem, Hget. reflexivity.
Qed.

(** ** The streaming loop *)

Lemma commit_response_run (sid full : string) (w : World) :
  commit_response sid full w =
  (Return tt,
   mkWorld
     (dict_update sid (set_last_updated (clock (S (ticks w))))
        (dict_update sid
           (append_message (mkMessage "assistant" (JStr full) (clock (ticks w))))
           (chat_sessions w)))
     (S (S (ticks w))) (uuids w) (outbox w)).
Proof. reflexivity. Qed.

Lemma read_content_raises (data : json) (e : exn) :
  read_content data = Raise e -> e <> JSONDecodeError.
Proof.
  assert (Hin : forall k v e', py_in k v = Raise e' -> e' <> JSONDecodeError).
  { intros k v e'. destruct v; simpl; congruence. }
  assert (Hget : forall k v e', py_getitem v k = Raise e' -> e' <> JSONDecodeError).
  { intros k v e'. destruct v; simpl; try congruence.
    destruct (dict_getitem k kvs); congruence. }
  unfold read_content.
  destruct (py_in "message" data) as [[|]|e1] eqn:E1; try discriminate.
  - destruct (py_getitem data "message") as [message|e2] eqn:E2.
    + destruct (py_in "content" message) as [[|]|e3] eqn:E3; try discriminate.
      * destruct (py_getitem message "content") as [c|e4] eqn:E4; try discriminate.
        intros H; inversion H; subst. eapply Hget; eauto.
      * intros H; inversion H; subst. eapply Hin; eauto.
    + intros H; inversion H; subst. eapply Hget; eauto.
  - intros H; inversion H; subst. eapply Hin; eauto.
Qed.

Lemma string_app_nil_r (s : string) : (s ++ "")%string = s.
Proof. induction s; simpl; congruence. Qed.

Lemma string_app_assoc (a b c : string) :
  ((a ++ b) ++ c)%string = (a ++ (b ++ c))%string.
Proof. induction a; simpl; congruence. Qed.

Lemma fragments_app (xs ys : list Chunk) :
  fragments (xs ++ ys) = (fragments xs ++ fragments ys)%string.
Proof.
  induction xs as [|[s sid|sid] xs IH]; simpl; [reflexivity| |exact IH].
  rewrite IH. symmetry. apply string_app_assoc.
Qed.

Lemma content_only_nil (sid : string) : content_only sid [].
Proof. intros c []. Qed.

Lemma content_only_app (sid : string) (xs ys : list Chunk) :
  content_only sid xs -> content_only sid ys -> content_only sid (xs ++ ys).
Proof.
  intros Hx Hy c Hin. apply in_app_or in Hin. destruct Hin; auto.
Qed.


(** What one pass of the loop body does, by how it ends. *)
Lemma line_body_cases (sid line full : string) (w : World)
    (cs : list Chunk) (full' : string) (fl : flow) (w' : World) :
  String.eqb line "" = false ->
  line_body sid line full w = ((cs, full', fl), w') ->
  match fl with
  | Break =>
      done_record line = true /\
      exists cs0, cs = cs0 ++ [DoneChunk sid] /\ content_only sid cs0 /\
                  full' = (full ++ fragments cs0)%string /\
                  w' = snd (commit_response sid full' w)
  | Next =>
      done_record line = false /\ content_only sid cs /\
      full' = (full ++ fragments cs)%string /\ w' = w
  | Exc e =>
      content_only sid cs /\ full' = (full ++ fragments cs)%string /\ w' = w /\
      (e = JSONDecodeError -> json_loads line = None /\ cs = [])
  end.
Proof.
  intros Hne H.
  unfold line_body, loads in H. unfold done_record.
  rewrite Hne. cbn [negb andb].
  assert (Hnil : full = (full ++ fragments [])%string)
    by (symmetry; apply string_app_nil_r).
  destruct (json_loads line) as [data|].
  2:{ inversion H; subst. auto using content_only_nil. }
  destruct (read_content data) as [found|e0] eqn:Hrc.
  2:{ inversion H; subst.
      split; [apply content_only_nil|]. split; [exact Hnil|].
      split; [reflexivity|].
      intros ->. exfalso. eapply read_content_raises; eauto. }
  assert (Hadd : forall ys full1,
             content_only sid ys -> full1 = (full ++ fragments ys)%string ->
             match py_get data "done" (JBool false) with
             | Raise e => ((ys, full1, Exc e), w)
             | Return done =>
                 if py_truthy done
                 then ((ys ++ [DoneChunk sid], full1, Break),
                       snd (commit_response sid full1 w))
                 else ((ys, full1, Next), w)
             end = ((cs, full', fl), w') ->
             match fl with
             | Break =>
                 match py_get data "done" (JBool false) with
                 | Return done => py_truthy done
                 | Raise _ => false
                 end = true /\
                 exists cs0, cs = cs0 ++ [DoneChunk sid] /\ content_only sid cs0 /\
                             full' = (full ++ fragments cs0)%string /\
                             w' = snd (commit_response sid full' w)
             | Next =>
                 match py_get data "done" (JBool false) with
                 | Return done => py_truthy done
                 | Raise _ => false
                 end = false /\ content_only sid cs /\
                 full' = (full ++ fragments cs)%string /\ w' = w
             | Exc e =>
                 content_only sid cs /\ full' = (full ++ fragments cs)%string /\
                 w' = w /\ (e = JSONDecodeError -> Some data = None /\ cs = [])
             end).
  { intros ys full1 Hys Hfull Hrun.
    destruct (py_get data "done" (JBool false)) as [done|e1] eqn:Hdone.
    - destruct (py_truthy done) eqn:Ht; inversion Hrun; subst.
      + split; [reflexivity|]. exists ys. auto.
      + auto.
    - inversion Hrun; subst.
      split; [assumption|]. split; [reflexivity|]. split; [reflexivity|].
      intros ->. destruct data; simpl in Hdone; try discriminate.
      destruct (dict_getitem "done" kvs); discriminate. }
  destruct found as [content|].
  - destruct content as [| | |s| |];
      try (inversion H; subst;
           split; [apply content_only_nil|]; split; [exact Hnil|];
           split; [reflexivity|]; intros; discriminate).
    apply (Hadd [ContentChunk s sid] (full ++ s)%string); auto.
    + intros c [<-|[]]. eauto.
    + simpl. rewrite string_app_nil_r. reflexivity.
  - apply (Hadd [] full); auto using content_only_nil.
Qed.

Lemma generate_loop_empty_line (sid : string) (rest : list string)
    (dropped : bool) (full : string) (w : World) :
  generate_loop sid ("" :: rest) dropped full w =
  generate_loop sid rest dropped full w.
Proof. reflexivity. Qed.

Lemma generate_loop_cons (sid line : string) (rest : list string)
    (dropped : bool) (full : string) (w : World)
    (cs : list Chunk) (full' : string) (fl : flow) (w' : World) :
  String.eqb line "" = false ->
  line_body sid line full w = ((cs, full', fl), w') ->
  generate_loop sid (line :: rest) dropped full w =
  match fl with
  | Break => ((cs, None), w')
  | Exc JSONDecodeError | Next =>
      ((cs ++ fst (fst (generate_loop sid rest dropped full' w')),
        snd (fst (generate_loop sid rest dropped full' w'))),
       snd (generate_loop sid rest dropped full' w'))
  | Exc e => ((cs, Some e), w')
  end.
Proof.
  intros Hne Hbody. cbn [generate_loop]. rewrite Hne, Hbody.
  destruct (generate_loop sid rest dropped full' w') as [[more e] w''].
  reflexivity.
Qed.

Lemma done_record_empty : done_record "" = false.
Proof. reflexivity. Qed.

(** The loop either reaches a completion record, and then ends with the
    done chunk after committing the concatenation of the fragments, or
    leaves the world as it found it. *)
Lemma generate_loop_outcome (sid : string) (ls : list string) (dropped : bool) :
  forall (full : string) (w : World) chunks e w',
    generate_loop sid ls dropped full w = ((chunks, e), w') ->
    (exists cs,
        chunks = cs ++ [DoneChunk sid] /\ content_only sid cs /\ e = None /\
        w' = snd (commit_response sid (full ++ fragments cs) w) /\
        existsb done_record ls = true)
    \/ (content_only sid chunks /\ w' = w).
Proof.
  induction ls as [|line rest IH]; intros full w chunks e w' Hrun.
  - simpl in Hrun. inversion Hrun; subst. right. auto using content_only_nil.
  - destruct (String.eqb line "") eqn:Hne.
    + apply String.eqb_eq in Hne. subst line.
      rewrite generate_loop_empty_line in Hrun.
      destruct (IH _ _ _ _ _ Hrun) as [(cs & ? & ? & ? & ? & Hex)|?]; [left|right; auto].
      exists cs. cbn [existsb]. rewrite done_record_empty. auto.
    + destruct (line_body sid line full w) as [[[cs full'] fl] w1] eqn:Hbody.
      pose proof (line_body_cases _ _ _ _ _ _ _ _ Hne Hbody) as Hcases.
      rewrite (generate_loop_cons _ _ _ _ _ _ _ _ _ _ Hne Hbody) in Hrun.
      assert (Hcont : forall done_here,
                 content_only sid cs -> full' = (full ++ fragments cs)%string ->
                 w1 = w -> done_record line = done_here ->
                 ((cs ++ fst (fst (generate_loop sid rest dropped full' w1)),
                   snd (fst (generate_loop sid rest dropped full' w1))),
                  snd (generate_loop sid rest dropped full' w1)) = ((chunks, e), w') ->
                 (exists cs0,
                     chunks = cs0 ++ [DoneChunk sid] /\ content_only sid cs0 /\
                     e = None /\
                     w' = snd (commit_response sid (full ++ fragments cs0) w) /\
                     existsb done_record (line :: rest) = true)
                 \/ (content_only sid chunks /\ w' = w)).
      { intros done_here Hcs Hfull Hw Hd Hgo. subst w1.
        destruct (generate_loop sid rest dropped full' w) as [[more e1] w2] eqn:Hrest.
        simpl in Hgo. inversion Hgo; subst chunks e w'. clear Hgo.
        destruct (IH _ _ _ _ _ Hrest) as [(cs1 & -> & Hc1 & -> & -> & Hex)|[Hc1 ->]].
        - left. exists (cs ++ cs1). rewrite app_assoc.
          split; [reflexivity|]. split; [apply content_only_app; assumption|].
          split; [reflexivity|]. split.
          + rewrite fragments_app, Hfull, string_app_assoc. reflexivity.
          + cbn [existsb]. rewrite Hex. apply orb_true_r.
        - right. split; [apply content_only_app; assumption|reflexivity]. }
      destruct fl as [| |ex].
      * destruct Hcases as (Hd & Hcs & Hfull & Hw). eapply Hcont; eauto.
      * destruct Hcases as (Hd & cs0 & -> & Hcs & Hfull & Hw).
        inversion Hrun; subst. left. exists cs0.
        cbn [existsb]. rewrite Hd. auto.
      * destruct Hcases as (Hcs & Hfull & Hw & Hdec).
        destruct ex; try solve [inversion Hrun; subst; right; auto].
        eapply Hcont; eauto.
Qed.

Lemma no_done_record (ls : list string) :
  forallb (fun line => negb (done_record line)) ls = true ->
  existsb done_record ls = false.
Proof.
  induction ls as [|l ls IH]; simpl; [reflexivity|].
  intros H. apply andb_prop in H. destruct H as [H1 H2].
  apply negb_true_iff in H1. rewrite H1, IH by assumption. reflexivity.
Qed.

(** Without a completion record the loop commits nothing. *)
Lemma generate_loop_no_done (sid : string) (ls : list string) (dropped : bool)
    (full : string) (w : World) :
  forallb (fun line => negb (done_record line)) ls = true ->
  snd (generate_loop sid ls dropped full w) = w.
Proof.
  intros Hno.
  destruct (generate_loop sid ls dropped full w) as [[chunks e] w'] eqn:Hrun.
  destruct (generate_loop_outcome _ _ _ _ _ _ _ _ Hrun)
    as [(cs & _ & _ & _ & _ & Hex)|[_ ->]]; [|reflexivity].
  rewrite (no_done_record _ Hno) in Hex. discriminate.
Qed.



(** ** The streaming loop, line by line *)











(** ** The listing order *)

Lemma insert_desc_perm (x : SessionInfo) (l : list SessionInfo) :
  Permutation (insert_desc x l) (x :: l).
Proof.
  induction l as [|y l IH]; simpl; [apply Permutation_refl|].
  destruct (info_last_updated y <=? info_last_updated x).
  - apply Permutation_refl.
  - eapply perm_trans; [apply perm_skip, IH | apply perm_swap].
Qed.

Lemma sorted_desc_perm (l : list SessionInfo) :
  Permutation (sorted_desc l) l.
Proof.
  induction l as [|x l IH]; simpl; [apply perm_nil|].
  eapply perm_trans; [apply insert_desc_perm | apply perm_skip, IH].
Qed.

Lemma insert_desc_sorted (x : SessionInfo) (l : list SessionInfo) :
  StronglySorted (fun a b => info_last_updated b <= info_last_updated a) l ->
  StronglySorted (fun a b => info_last_updated b <= info_last_updated a)
    (insert_desc x l).
Proof.
  induction l as [|y l IH]; intros Hs; simpl.
  - constructor; constructor.
  - inversion Hs as [|? ? Hs' Hall]; subst.
    destruct (info_last_updated y <=? info_last_updated x) eqn:E.
    + apply Z.leb_le in E. constructor; [exact Hs|].
      constructor; [exact E|].
      eapply Forall_impl; [|exact Hall]. simpl. intros z Hz. lia.
    + apply Z.leb_gt in E. constructor; [apply IH; exact Hs'|].
      apply Forall_forall. intros z Hz.
      apply (Permutation_in _ (insert_desc_perm x l)) in Hz.
      destruct Hz as [<-|Hz]; [lia|].
      rewrite Forall_forall in Hall. apply Hall. exact Hz.
Qed.

Lemma sorted_desc_sorted (l : list SessionInfo) :
  StronglySorted (fun a b => info_last_updated b <= info_last_updated a)
    (sorted_desc l).
Proof.
  induction l as [|x l IH]; simpl; [constructor|].
  apply insert_desc_sorted. exact IH.
Qed.

Lemma sorted_prefix_above (R : SessionInfo -> SessionInfo -> Prop)
    (l1 l2 : list SessionInfo) (a b : SessionInfo) :
  StronglySorted R (l1 ++ a :: l2) -> In b l1 -> R b a.
Proof.
  induction l1 as [|y l1 IH]; intros Hs Hin; [destruct Hin|].
  simpl in Hs. inversion Hs as [|? ? Hs' Hall]; subst.
  destruct Hin as [<-|Hin].
  - rewrite Forall_forall in Hall. apply Hall.
    apply in_or_app. right. left. reflexivity.
  - apply IH; assumption.
Qed.

Lemma sorted_before (out : list SessionInfo) (a b : SessionInfo) :
  StronglySorted (fun a b => info_last_updated b <= info_last_updated a) out ->
  In a out -> In b out -> info_last_updated a > info_last_updated b ->
  before_in a b out /\ ~ before_in b a out.
Proof.
  intros Hs Ha Hb Hgt. split.
  - destruct (in_split _ _ Ha) as (l1 & l2 & ->).
    apply in_app_or in Hb. destruct Hb as [Hb|[Hb|Hb]].
    + pose proof (sorted_prefix_above _ _ _ _ _ Hs Hb) as Hle. simpl in Hle. lia.
    + subst b. lia.
    + destruct (in_split _ _ Hb) as (l3 & l4 & ->).
      exists l1, l3, l4. reflexivity.
  - intros (l1 & l2 & l3 & ->).
    assert (Hin : In b (l1 ++ b :: l2)) by (apply in_or_app; right; left; reflexivity).
    rewrite app_comm_cons, app_assoc in Hs.
    pose proof (sorted_prefix_above _ _ _ _ _ Hs Hin) as Hle. simpl in Hle. lia.
Qed.

(** The sort is stable: entries with the same key stay in input order. *)
Lemma insert_desc_stable (t : Z) (x : SessionInfo) (l : list SessionInfo) :
  filter (fun y => info_last_updated y =? t) (insert_desc x l) =
  filter (fun y => info_last_updated y =? t) (x :: l).
Proof.
  induction l as [|y l IH]; [reflexivity|].
  cbn [insert_desc].
  destruct (info_last_updated y <=? info_last_updated x) eqn:E; [reflexivity|].
  apply Z.leb_gt in E.
  cbn [filter] in *. rewrite IH.
  destruct (info_last_updated x =? t) eqn:Ex;
    destruct (info_last_updated y =? t) eqn:Ey; try reflexivity.
  apply Z.eqb_eq in Ex, Ey. lia.
Qed.

Lemma sorted_desc_stable (t : Z) (l : list SessionInfo) :
  filter (fun y => info_last_updated y =? t) (sorted_desc l) =
  filter (fun y => info_last_updated y =? t) l.
Proof.
  induction l as [|x l IH]; [reflexivity|].
  cbn [sorted_desc fold_right]. fold (sorted_desc l).
  rewrite insert_desc_stable. cbn [filter]. rewrite IH. reflexivity.
Qed.

(** ** What a turn leaves in the store *)

Lemma session_id_or_create_fresh (request : ChatRequest) (w : World) :
  opt_truthy (req_session_id request) = false ->
  session_id_or_create request w = create_session (req_model request) w.
Proof. intros H. unfold session_id_or_create. rewrite H. reflexivity. Qed.

Lemma session_id_or_create_world (request : ChatRequest) (w w0 : World)
    (sid : string) :
  session_id_or_create request w = (Return sid, w0) ->
  outbox w0 = outbox w /\
  (w0 = w \/
   sid = uuid4 (uuids w) /\
   w0 = mkWorld
          (dict_setitem sid
             (mkSession (req_model request) [] (clock (ticks w)) (clock (S (ticks w))))
             (chat_sessions w))
          (S (S (ticks w))) (S (uuids w)) (outbox w)).
Proof.
  unfold session_id_or_create.
  destruct (opt_truthy (req_session_id request)).
  - intros H. inversion H; subst. auto.
  - rewrite create_session_run. intros H. inversion H; subst. simpl. auto.
Qed.

Lemma chat_with_model_except_run (e : exn) (w : World) :
  exists e', chat_with_model_except e w = (Raise e', w).
Proof. destruct e; simpl; eexists; reflexivity. Qed.

(** The store after a blocking turn on a resolved session: the user
    message alone, or the user message, the assistant message and the new
    [last_updated]. *)
Lemma chat_with_model_store (ollama : Payload -> Reply)
    (request : ChatRequest) (w w0 : World) (sid : string) (s0 : Session) :
  session_id_or_create request w = (Return sid, w0) ->
  dict_getitem sid (chat_sessions w0) = Some s0 ->
  model s0 = req_model request ->
  let user := mkMessage "user" (JStr (req_message request)) (clock (ticks w0)) in
  let w' := snd (chat_with_model ollama request w) in
  uuids w' = uuids w0 /\
  outbox w' =
    outbox w0 ++
    [mkPayload (req_model request)
       (with_system_prompt (req_system_prompt request)
          (map (fun msg => (role msg, content msg)) (messages s0 ++ [user])))
       false] /\
  (chat_sessions w' = dict_update sid (append_message user) (chat_sessions w0)
   \/ exists c,
       chat_sessions w' =
       dict_update sid (set_last_updated (clock (S (S (ticks w0)))))
         (dict_update sid
            (append_message (mkMessage "assistant" c (clock (S (ticks w0)))))
            (dict_update sid (append_message user) (chat_sessions w0)))).
Proof.
  intros Hres Hget Hmodel user w'. subst w'.
  rewrite (chat_with_model_resolved ollama _ _ _ _ _ Hres Hget Hmodel).
  fold user.
  destruct (ollama _) as [|code text|text]; simpl; auto.
  destruct (message_content text) as [c|e].
  - destruct (ChatResponse_init _ _ _ _) as [r|e].
    + simpl. eauto.
    + match goal with
      | |- context [chat_with_model_except ?e ?w] =>
          destruct (chat_with_model_except_run e w) as [e' ->]
      end. simpl. eauto.
  - match goal with
    | |- context [chat_with_model_except ?e ?w] =>
        destruct (chat_with_model_except_run e w) as [e' ->]
    end. simpl. auto.
Qed.

(** The same for a streaming turn. *)
Lemma stream_turn_store (ollama : Payload -> StreamReply)
    (request : ChatRequest) (w w0 : World) (sid : string) (s0 : Session) :
  session_id_or_create request w = (Return sid, w0) ->
  dict_getitem sid (chat_sessions w0) = Some s0 ->
  let user := mkMessage "user" (JStr (req_message request)) (clock (ticks w0)) in
  let w' := snd (stream_turn ollama request w) in
  uuids w' = uuids w0 /\
  outbox w' =
    outbox w0 ++
    [mkPayload (req_model request)
       (with_system_prompt (req_system_prompt request)
          (map (fun msg => (role msg, content msg)) (messages s0 ++ [user])))
       true] /\
  (chat_sessions w' = dict_update sid (append_message user) (chat_sessions w0)
   \/ exists full,
       chat_sessions w' =
       dict_update sid (set_last_updated (clock (S (S (ticks w0)))))
         (dict_update sid
            (append_message
               (mkMessage "assistant" (JStr full) (clock (S (ticks w0)))))
            (dict_update sid (append_message user) (chat_sessions w0)))).
Proof.
  intros Hres Hget user w'. subst w'.
  unfold stream_turn. rewrite (chat_stream_resolved _ _ _ _ _ Hres Hget).
  fold user. unfold generate. cbn [gen_model gen_messages gen_session_id].
  destruct (ollama _) as [|code text|ls dropped]; simpl; auto.
  match goal with
  | |- context [generate_loop ?a ?b ?c ?d ?e] =>
      destruct (generate_loop a b c d e) as [[chunks ex] w2] eqn:Hrun
  end.
  destruct (generate_loop_outcome _ _ _ _ _ _ _ _ Hrun)
    as [(cs & _ & _ & _ & -> & _)|[_ ->]]; simpl; eauto.
Qed.

(** ** Invariants of the store *)

Lemma update_update V (k : string) (f g : V -> V) (d : dict V) :
  dict_update k g (dict_update k f d) = dict_update k (fun v => g (f v)) d.
Proof.
  induction d as [|[k0 v] d IH]; simpl; [reflexivity|].
  destruct (String.eqb k k0) eqn:E; simpl; rewrite E; [reflexivity|].
  f_equal. exact IH.
Qed.

Lemma getitem_some_in_keys V (k : string) (d : dict V) (v : V) :
  dict_getitem k d = Some v -> In k (dict_keys d).
Proof.
  intros H. destruct (in_dec string_dec k (dict_keys d)) as [Hin|Hnin]; [exact Hin|].
  apply getitem_in_keys in Hnin. congruence.
Qed.

Lemma keys_setitem_new V (k : string) (v : V) (d : dict V) :
  ~ In k (dict_keys d) -> dict_keys (dict_setitem k v d) = dict_keys d ++ [k].
Proof.
  induction d as [|[k0 v0] d IH]; simpl; intros Hnin; [reflexivity|].
  destruct (String.eqb k k0) eqn:E.
  - apply String.eqb_eq in E. subst. elim Hnin. auto.
  - simpl. f_equal. apply IH. intros H. apply Hnin. auto.
Qed.

Lemma keys_delitem V (k : string) (d : dict V) :
  NoDup (dict_keys d) ->
  NoDup (dict_keys (dict_delitem k d)) /\
  forall k', In k' (dict_keys (dict_delitem k d)) -> In k' (dict_keys d).
Proof.
  induction d as [|[k0 v0] d IH]; simpl; intros ND; [auto|].
  inversion ND as [|? ? Hnin ND']; subst.
  destruct (String.eqb k k0).
  - split; [exact ND'|]. auto.
  - destruct (IH ND') as [IH1 IH2]. simpl. split.
    + constructor; [|exact IH1]. intros H. apply Hnin. apply IH2. exact H.
    + intros k' [H|H]; auto.
Qed.

Lemma later_session_refl (s : Session) : later_session s s.
Proof.
  split; [reflexivity|]. split; [reflexivity|].
  exists []. symmetry. apply app_nil_r.
Qed.

Lemma later_session_trans (s1 s2 s3 : Session) :
  later_session s1 s2 -> later_session s2 s3 -> later_session s1 s3.
Proof.
  intros (Hm1 & Hc1 & t1 & Ht1) (Hm2 & Hc2 & t2 & Ht2).
  split; [congruence|]. split; [congruence|].
  exists (t1 ++ t2). rewrite Ht2, Ht1, app_assoc. reflexivity.
Qed.

(** Appending [m] keeps a history well formed when [m] is no assistant
    message or the history ends with a user message. *)
Lemma assistant_follows_user_snoc (l : list Message) (m : Message) :
  assistant_follows_user l ->
  (role m = "assistant" ->
   exists earlier u, l = earlier ++ [u] /\ role u = "user") ->
  assistant_follows_user (l ++ [m]).
Proof.
  intros Hl Hm before x after Heq Hrole.
  destruct after as [|a after].
  - apply app_inj_tail in Heq. destruct Heq as [-> ->]. auto.
  - destruct (exists_last (l := a :: after)) as (init & y & Hlast);
      [discriminate|].
    rewrite Hlast, app_comm_cons, app_assoc in Heq.
    apply app_inj_tail in Heq. destruct Heq as [-> _].
    eapply Hl; eauto.
Qed.

Lemma follows_refl (w : World) : follows w w.
Proof.
  split; [lia|]. split; [auto|].
  intros sid s s' H1 H2. rewrite H1 in H2. inversion H2. apply later_session_refl.
Qed.

Lemma follows_trans (w1 w2 w3 : World) :
  store_ok w1 -> follows w1 w2 -> follows w2 w3 -> follows w1 w3.
Proof.
  intros (_ & Hgen & _) (Hu1 & Hn1 & Hl1) (Hu2 & Hn2 & Hl2).
  split; [lia|]. split.
  - intros k Hk Hnone. apply Hn2; [lia|]. apply Hn1; assumption.
  - intros sid s s3 Hs Hs3.
    destruct (dict_getitem sid (chat_sessions w2)) as [s2|] eqn:Hs2.
    + eapply later_session_trans; eauto.
    + destruct (Hgen sid (getitem_some_in_keys _ _ _ _ Hs)) as (k & Hk & <-).
      rewrite (Hn2 k) in Hs3; [discriminate|lia|exact Hs2].
Qed.

(** Worlds that differ in the clock and in the posted bodies only. *)
Lemma same_store_step (w w' : World) :
  chat_sessions w' = chat_sessions w -> uuids w' = uuids w ->
  store_ok w ->
  store_ok w' /\ follows w w' /\
  forall sid s, dict_getitem sid (chat_sessions w) = Some s ->
                dict_getitem sid (chat_sessions w') <> None.
Proof.
  intros Hs Hu Hok. unfold store_ok, follows. rewrite Hs, Hu.
  split; [exact Hok|]. split.
  - split; [lia|]. split; [auto|].
    intros sid s s' H1 H2. rewrite H1 in H2. inversion H2.
    apply later_session_refl.
  - intros sid s H. congruence.
Qed.

(** [create_session] with identifiers that never repeat. *)
Lemma create_step (w w' : World) (m : string) (t1 t2 : Z) :
  (forall i j, uuid4 i = uuid4 j -> i = j) ->
  chat_sessions w' =
    dict_setitem (uuid4 (uuids w)) (mkSession m [] t1 t2) (chat_sessions w) ->
  uuids w' = S (uuids w) ->
  store_ok w ->
  store_ok w' /\ follows w w' /\
  forall sid s, dict_getitem sid (chat_sessions w) = Some s ->
                dict_getitem sid (chat_sessions w') <> None.
Proof.
  intros Hinj Hs Hu (Hnd & Hgen & Hhist).
  assert (Hfresh : ~ In (uuid4 (uuids w)) (dict_keys (chat_sessions w))).
  { intros Hin. destruct (Hgen _ Hin) as (k & Hk & Heq).
    apply Hinj in Heq. lia. }
  assert (Hother : forall sid, sid <> uuid4 (uuids w) ->
             dict_getitem sid (chat_sessions w') = dict_getitem sid (chat_sessions w)).
  { intros sid Hne. rewrite Hs, getitem_setitem.
    destruct (String.eqb (uuid4 (uuids w)) sid) eqn:E; [|reflexivity].
    apply String.eqb_eq in E. congruence. }
  assert (Hold : forall sid s, dict_getitem sid (chat_sessions w) = Some s ->
                               sid <> uuid4 (uuids w)).
  { intros sid s H ->. apply Hfresh. eapply getitem_some_in_keys; eauto. }
  split; [|split].
  - unfold store_ok. rewrite Hs, Hu, (keys_setitem_new _ _ _ _ Hfresh).
    split; [|split].
    + apply NoDup_app; [exact Hnd | constructor; [intros []|constructor] |].
      intros x Hx [<-|[]]. exact (Hfresh Hx).
    + intros sid Hin. apply in_app_or in Hin. destruct Hin as [Hin|[<-|[]]].
      * destruct (Hgen _ Hin) as (k & Hk & Heq). exists k. split; [lia|exact Heq].
      * exists (uuids w). split; [lia|reflexivity].
    + intros sid s. rewrite getitem_setitem.
      destruct (String.eqb (uuid4 (uuids w)) sid).
      * intros H. inversion H. simpl. intros before x after Heq.
        destruct before; discriminate.
      * apply Hhist.
  - split; [lia|]. split.
    + intros k Hk Hnone. rewrite Hother; [exact Hnone|].
      intros Heq. apply Hinj in Heq. lia.
    + intros sid s s' H1 H2. rewrite (Hother _ (Hold _ _ H1)), H1 in H2.
      inversion H2. apply later_session_refl.
  - intros sid s H. rewrite (Hother _ (Hold _ _ H)). congruence.
Qed.

(** In-place mutation of one session by a function that extends its
    history and keeps it well formed. *)
Lemma update_step (w w' : World) (sid0 : string) (f : Session -> Session) :
  (forall s, later_session s (f s) /\
             (assistant_follows_user (messages s) ->
              assistant_follows_user (messages (f s)))) ->
  chat_sessions w' = dict_update sid0 f (chat_sessions w) ->
  uuids w' = uuids w ->
  store_ok w ->
  store_ok w' /\ follows w w' /\
  forall sid s, dict_getitem sid (chat_sessions w) = Some s ->
                dict_getitem sid (chat_sessions w') <> None.
Proof.
  intros Hf Hs Hu (Hnd & Hgen & Hhist).
  split; [|split].
  - unfold store_ok. rewrite Hs, Hu, keys_update.
    split; [exact Hnd|]. split; [exact Hgen|].
    intros sid s. rewrite getitem_update.
    destruct (String.eqb sid0 sid); [|apply Hhist].
    destruct (dict_getitem sid (chat_sessions w)) as [s1|] eqn:H1; [|discriminate].
    simpl. intros H. inversion H. apply Hf. eapply Hhist; eauto.
  - split; [lia|]. split.
    + intros k Hk Hnone. rewrite Hs, getitem_update, Hnone.
      destruct (String.eqb sid0 (uuid4 k)); reflexivity.
    + intros sid s s' H1. rewrite Hs, getitem_update, H1.
      destruct (String.eqb sid0 sid); simpl; intros H2; inversion H2.
      * apply Hf.
      * apply later_session_refl.
  - intros sid s H. rewrite Hs, getitem_update, H.
    destruct (String.eqb sid0 sid); discriminate.
Qed.

Lemma keeps_sessions_trans (w1 w2 w3 : World) :
  store_ok w1 -> keeps_sessions w1 w2 -> keeps_sessions w2 w3 ->
  keeps_sessions w1 w3.
Proof.
  intros Hok (Hok2 & Hf12 & Hk12) (Hok3 & Hf23 & Hk23).
  split; [exact Hok3|]. split; [eapply follows_trans; eauto|].
  intros sid s Hs.
  destruct (dict_getitem sid (chat_sessions w2)) as [s2|] eqn:Hs2.
  - eapply Hk23; eauto.
  - elim (Hk12 _ _ Hs). exact Hs2.
Qed.

Lemma append_user_grows (text : string) (t : Z) (s : Session) :
  later_session s (append_message (mkMessage "user" (JStr text) t) s) /\
  (assistant_follows_user (messages s) ->
   assistant_follows_user
     (messages (append_message (mkMessage "user" (JStr text) t) s))).
Proof.
  split.
  - split; [reflexivity|]. split; [reflexivity|]. eexists. reflexivity.
  - intros H. simpl. apply assistant_follows_user_snoc; [exact H|].
    simpl. discriminate.
Qed.

Lemma full_turn_grows (text : string) (c : json) (t1 t2 t3 : Z) (s : Session) :
  let f := fun s =>
    set_last_updated t3
      (append_message (mkMessage "assistant" c t2)
         (append_message (mkMessage "user" (JStr text) t1) s)) in
  later_session s (f s) /\
  (assistant_follows_user (messages s) ->
   assistant_follows_user (messages (f s))).
Proof.
  split.
  - split; [reflexivity|]. split; [reflexivity|]. simpl.
    eexists. rewrite <- app_assoc. reflexivity.
  - intros H. simpl.
    apply assistant_follows_user_snoc.
    + apply assistant_follows_user_snoc; [exact H|]. simpl. discriminate.
    + intros _. eexists _, _. split; reflexivity.
Qed.

(** Resolving the session of a request. *)
Lemma session_id_or_create_step (request : ChatRequest) (w w0 : World)
    (sid : string) :
  (forall i j, uuid4 i = uuid4 j -> i = j) ->
  session_id_or_create request w = (Return sid, w0) ->
  store_ok w -> keeps_sessions w w0.
Proof.
  intros Hinj Hres Hok.
  destruct (session_id_or_create_world _ _ _ _ Hres) as [_ [->|[-> ->]]].
  - apply same_store_step; auto.
  - eapply create_step; eauto; reflexivity.
Qed.

Lemma chat_with_model_step (ollama : Payload -> Reply) (request : ChatRequest)
    (w : World) :
  (forall i j, uuid4 i = uuid4 j -> i = j) ->
  store_ok w -> keeps_sessions w (snd (chat_with_model ollama request w)).
Proof.
  intros Hinj Hok.
  destruct (session_id_or_create_run request w) as (sid & w0 & Hres).
  pose proof (session_id_or_create_step _ _ _ _ Hinj Hres Hok) as H0.
  apply (keeps_sessions_trans _ w0); [exact Hok|exact H0|].
  destruct H0 as [Hok0 _].
  destruct (dict_getitem sid (chat_sessions w0)) as [s0|] eqn:Hget.
  - destruct (String.eqb (model s0) (req_model request)) eqn:Hm.
    + apply String.eqb_eq in Hm.
      destruct (chat_with_model_store ollama _ _ _ _ _ Hres Hget Hm)
        as (Hu & _ & [Hs|[c Hs]]).
      * eapply update_step; eauto. intros s. apply append_user_grows.
      * rewrite !update_update in Hs.
        eapply update_step; eauto. intros s. apply full_turn_grows.
    + apply String.eqb_neq in Hm.
      rewrite (chat_with_model_mismatch ollama _ _ _ _ _ Hres Hget Hm).
      apply same_store_step; auto.
  - rewrite (chat_with_model_unknown ollama _ _ _ _ Hres Hget).
    apply same_store_step; auto.
Qed.

Lemma stream_turn_step (ollama : Payload -> StreamReply) (request : ChatRequest)
    (w : World) :
  (forall i j, uuid4 i = uuid4 j -> i = j) ->
  store_ok w -> keeps_sessions w (snd (stream_turn ollama request w)).
Proof.
  intros Hinj Hok.
  destruct (session_id_or_create_run request w) as (sid & w0 & Hres).
  pose proof (session_id_or_create_step _ _ _ _ Hinj Hres Hok) as H0.
  apply (keeps_sessions_trans _ w0); [exact Hok|exact H0|].
  destruct H0 as [Hok0 _].
  destruct (dict_getitem sid (chat_sessions w0)) as [s0|] eqn:Hget.
  - destruct (stream_turn_store ollama _ _ _ _ _ Hres Hget)
      as (Hu & _ & [Hs|[c Hs]]).
    + eapply update_step; eauto. intros s. apply append_user_grows.
    + rewrite !update_update in Hs.
      eapply update_step; eauto. intros s. apply full_turn_grows.
  - unfold stream_turn. rewrite (chat_stream_unknown _ _ _ _ Hres Hget).
    apply same_store_step; auto.
Qed.

Lemma get_session_world (sid : string) (w : World) :
  snd (get_session sid w) = w.
Proof.
  unfold get_session. unfold_monad.
  destruct (dict_contains sid (chat_sessions w)); simpl; [|reflexivity].
  destruct (dict_getitem sid (chat_sessions w)); reflexivity.
Qed.

Lemma delete_session_world (sid : string) (w : World) :
  snd (delete_session sid w) =
  if dict_contains sid (chat_sessions w)
  then mkWorld (dict_delitem sid (chat_sessions w)) (ticks w) (uuids w) (outbox w)
  else w.
Proof.
  unfold delete_session. unfold_monad.
  destruct (dict_contains sid (chat_sessions w)); reflexivity.
Qed.

Lemma create_new_session_world (tags : Reply) (m : string) (w : World) :
  snd (create_new_session tags m w) = w \/
  snd (create_new_session tags m w) = snd (create_session m w).
Proof.
  unfold create_new_session, create_new_session_body. unfold_monad.
  destruct tags as [|code text|text]; simpl; auto.
  destruct (loads text) as [data|e]; simpl; [|destruct e; auto].
  destruct (py_get data "models" (JArr [])) as [models|e]; simpl;
    [|destruct e; auto].
  destruct (py_iter models) as [items|e]; simpl; [|destruct e; auto].
  destruct (model_names items) as [names|e]; simpl; [|destruct e; auto].
  destruct (existsb (is_JStr m) names); simpl; auto.
  rewrite getitem_setitem, String.eqb_refl. right. reflexivity.
Qed.

Lemma delete_step (sid0 : string) (w : World) :
  store_ok w ->
  let w' := mkWorld (dict_delitem sid0 (chat_sessions w)) (ticks w) (uuids w)
              (outbox w) in
  store_ok w' /\ follows w w' /\
  forall sid s, dict_getitem sid (chat_sessions w) = Some s ->
                dict_getitem sid (chat_sessions w') = None -> sid0 = sid.
Proof.
  intros (Hnd & Hgen & Hhist) w'.
  destruct (keys_delitem _ sid0 _ Hnd) as [Hnd' Hsub].
  assert (Hget : forall sid,
             dict_getitem sid (chat_sessions w') =
             if String.eqb sid0 sid then None
             else dict_getitem sid (chat_sessions w)).
  { intros sid. apply getitem_delitem. exact Hnd. }
  split; [|split].
  - split; [exact Hnd'|]. split.
    + intros sid Hin. apply Hgen. apply Hsub. exact Hin.
    + intros sid s. rewrite Hget.
      destruct (String.eqb sid0 sid); [discriminate|apply Hhist].
  - split; [simpl; lia|]. split.
    + intros k Hk Hnone. rewrite Hget, Hnone.
      destruct (String.eqb sid0 (uuid4 k)); reflexivity.
    + intros sid s s' H1. rewrite Hget, H1.
      destruct (String.eqb sid0 sid); [discriminate|].
      intros H2. inversion H2. apply later_session_refl.
  - intros sid s H1. rewrite Hget, H1.
    destruct (String.eqb sid0 sid) eqn:E; [|discriminate].
    intros _. apply String.eqb_eq. exact E.
Qed.

(** One operation: the store stays well formed, sessions only grow, and a
    session disappears only when it is deleted. *)
Lemma run_op_step (o : op) (w : World) :
  (forall i j, uuid4 i = uuid4 j -> i = j) ->
  store_ok w ->
  store_ok (run_op o w) /\ follows w (run_op o w) /\
  forall sid s, dict_getitem sid (chat_sessions w) = Some s ->
                dict_getitem sid (chat_sessions (run_op o w)) = None ->
                o = OpDelete sid.
Proof.
  intros Hinj Hok.
  assert (Hkeep : forall w', keeps_sessions w w' ->
             store_ok w' /\ follows w w' /\
             forall sid s, dict_getitem sid (chat_sessions w) = Some s ->
                           dict_getitem sid (chat_sessions w') = None ->
                           o = OpDelete sid).
  { intros w' (H1 & H2 & H3). split; [exact H1|]. split; [exact H2|].
    intros sid s Hs Hnone. elim (H3 _ _ Hs). exact Hnone. }
  destruct o as [ollama request|ollama request| |sid0|sid0|tags m]; cbn [run_op].
  - apply Hkeep. apply chat_with_model_step; assumption.
  - apply Hkeep. apply stream_turn_step; assumption.
  - apply Hkeep. apply same_store_step; auto.
  - apply Hkeep. rewrite get_session_world. apply same_store_step; auto.
  - rewrite delete_session_world.
    destruct (dict_contains sid0 (chat_sessions w)).
    + destruct (delete_step sid0 w Hok) as (H1 & H2 & H3).
      split; [exact H1|]. split; [exact H2|].
      intros sid s Hs Hnone. f_equal. eapply H3; eauto.
    + apply Hkeep. apply same_store_step; auto.
  - apply Hkeep.
    destruct (create_new_session_world tags m w) as [->| ->].
    + apply same_store_step; auto.
    + rewrite create_session_run. eapply create_step; eauto; reflexivity.
Qed.

Lemma initial_world_ok : store_ok initial_world.
Proof.
  split; [constructor|]. split.
  - intros sid [].
  - intros sid s H. discriminate.
Qed.

Lemma run_store_ok (ops : list op) :
  (forall i j, uuid4 i = uuid4 j -> i = j) ->
  forall w, store_ok w -> store_ok (run ops w) /\ follows w (run ops w).
Proof.
  intros Hinj. induction ops as [|o ops IH]; intros w Hok.
  - split; [exact Hok|apply follows_refl].
  - destruct (run_op_step o w Hinj Hok) as (H1 & H2 & _).
    destruct (IH _ H1) as [H3 H4].
    split; [exact H3|]. eapply follows_trans; eauto.
Qed.

Lemma run_deleted (ops : list op) :
  (forall i j, uuid4 i = uuid4 j -> i = j) ->
  forall w sid s,
    store_ok w ->
    dict_getitem sid (chat_sessions w) = Some s ->
    dict_getitem sid (chat_sessions (run ops w)) = None ->
    In (OpDelete sid) ops.
Proof.
  intros Hinj. induction ops as [|o ops IH]; intros w sid s Hok Hs Hnone.
  - simpl in Hnone. congruence.
  - destruct (run_op_step o w Hinj Hok) as (H1 & _ & H3).
    destruct (dict_getitem sid (chat_sessions (run_op o w))) as [s1|] eqn:Hs1.
    + right. eapply IH; eauto.
    + left. eapply H3; eauto.
Qed.

(** ** Properties of sequences of operations *)

(** C9. In every world reached from start-up by a sequence of operations
    (blocking turns, streaming turns, listing, reading, deleting, creating),
    generated identifiers never repeating, every assistant message of every
    stored history comes right after a user message; and after any further
    operations a session is either still stored, with the same model and a
    history that extends the earlier one, so of at least the same length,
    or one of those operations deleted it. *)
Theorem session_invariants :
  (forall i j, uuid4 i = uuid4 j -> i = j) ->
  forall (before after : list op) (sid : string) (s : Session),
    dict_getitem sid (chat_sessions (run before initial_world)) = Some s ->
    assistant_follows_user (messages s) /\
    match dict_getitem sid
            (chat_sessions (run after (run before initial_world))) with
    | Some s' =>
        model s' = model s /\
        (exists tail, messages s' = messages s ++ tail) /\
        (List.length (messages s) <= List.length (messages s'))%nat
    | None => In (OpDelete sid) after
    end.
Proof.
  intros Hinj before after sid s Hs.
  destruct (run_store_ok before Hinj _ initial_world_ok) as [Hok _].
  split.
  - destruct Hok as (_ & _ & Hhist). eapply Hhist; eauto.
  - destruct (dict_getitem sid (chat_sessions (run after (run before initial_world))))
      as [s'|] eqn:Hs'.
    + destruct (run_store_ok after Hinj _ Hok) as [_ (_ & _ & Hlater)].
      destruct (Hlater _ _ _ Hs Hs') as (Hm & _ & tail & Htail).
      split; [exact Hm|]. split; [eauto|].
      rewrite Htail, length_app. lia.
    + eapply run_deleted; eauto.
Qed.

(** ** Properties of the relay *)

(** C2. A streaming turn whose backend stream ends, by a failed connection
    or by exhaustion, before any record with a true completion flag commits
    nothing: the store after the turn is the store the handler left right
    after appending the user message, so every session has the same number
    of messages and the same [last_updated] as then. *)
Theorem stream_without_done_commits_nothing
    (ollama : Payload -> StreamReply) (request : ChatRequest)
    (w w1 : World) (g : Generator) :
  chat_stream request w = (Return g, w1) ->
  ends_before_done (ollama (mkPayload (gen_model g) (gen_messages g) true)) = true ->
  exists r w2,
    stream_turn ollama request w = (Return r, w2) /\
    chat_sessions w2 = chat_sessions w1 /\
    forall sid s,
      dict_getitem sid (chat_sessions w1) = Some s ->
      exists s',
        dict_getitem sid (chat_sessions w2) = Some s' /\
        List.length (messages s') = List.length (messages s) /\
        last_updated s' = last_updated s.
Proof.
  intros Hstream Hends.
  unfold stream_turn. rewrite Hstream.
  destruct (generate ollama g w1) as [r w2] eqn:Hgen.
  exists r, w2. split; [reflexivity|].
  assert (Hsame : chat_sessions w2 = chat_sessions w1).
  { unfold generate in Hgen.
    destruct (ollama _) as [|code text|ls dropped].
    - inversion Hgen. reflexivity.
    - inversion Hgen. reflexivity.
    - simpl in Hends.
      match type of Hgen with
      | generate_loop ?a ?b ?c ?d ?e = _ =>
          pose proof (generate_loop_no_done a b c d e Hends) as Hno
      end.
      rewrite Hgen in Hno. simpl in Hno. subst w2. reflexivity. }
  split; [exact Hsame|].
  intros sid s Hs. exists s. rewrite Hsame. auto.
Qed.



(** C5. The message list posted to the backend, in a blocking and in a
    streaming turn alike, is the stored history (ending with the new user
    message) mapped in order to role and content, the timestamps left out,
    with one system entry holding the prompt put in front exactly when the
    prompt is supplied and not empty; the history kept in the session gains
    the user message and at most an assistant message, never the system
    entry. *)
Theorem projection_sent_to_backend (request : ChatRequest) (w w0 : World)
    (sid : string) (s0 : Session) :
  session_id_or_create request w = (Return sid, w0) ->
  dict_getitem sid (chat_sessions w0) = Some s0 ->
  let user := mkMessage "user" (JStr (req_message request)) (clock (ticks w0)) in
  let projected := map (fun msg => (role msg, content msg)) (messages s0 ++ [user]) in
  let sent :=
    match req_system_prompt request with
    | Some prompt =>
        if String.eqb prompt "" then projected
        else ("system", JStr prompt) :: projected
    | None => projected
    end in
  get_session_messages sid w0 =
    (Return (map (fun msg => (role msg, content msg)) (messages s0)), w0) /\
  (forall ollama,
      model s0 = req_model request ->
      let w' := snd (chat_with_model ollama request w) in
      outbox w' = outbox w ++ [mkPayload (req_model request) sent false] /\
      exists s',
        dict_getitem sid (chat_sessions w') = Some s' /\
        (messages s' = messages s0 ++ [user] \/
         exists c t,
           messages s' = messages s0 ++ [user; mkMessage "assistant" c t])) /\
  (forall ollama,
      let w' := snd (stream_turn ollama request w) in
      outbox w' = outbox w ++ [mkPayload (req_model request) sent true] /\
      exists s',
        dict_getitem sid (chat_sessions w') = Some s' /\
        (messages s' = messages s0 ++ [user] \/
         exists c t,
           messages s' = messages s0 ++ [user; mkMessage "assistant" c t])).
Proof.
  intros Hres Hget user projected sent.
  assert (Hsent : with_system_prompt (req_system_prompt request) projected = sent).
  { unfold with_system_prompt, opt_truthy, sent.
    destruct (req_system_prompt request) as [prompt|]; [|reflexivity].
    destruct (String.eqb prompt ""); reflexivity. }
  destruct (session_id_or_create_world _ _ _ _ Hres) as [Hout _].
  split; [|split].
  - unfold get_session_messages. rewrite Hget. reflexivity.
  - intros ollama Hmodel w'.
    destruct (chat_with_model_store ollama _ _ _ _ _ Hres Hget Hmodel)
      as (_ & Hbox & Hstore).
    fold user projected in Hbox. rewrite Hsent, Hout in Hbox.
    split; [exact Hbox|].
    destruct Hstore as [Hs|[c Hs]]; fold w' in Hs; rewrite Hs;
      rewrite !getitem_update, !String.eqb_refl, Hget; simpl;
      eexists; (split; [reflexivity|]); simpl.
    + left. reflexivity.
    + right. rewrite <- app_assoc. simpl. eauto.
  - intros ollama w'.
    destruct (stream_turn_store ollama _ _ _ _ _ Hres Hget)
      as (_ & Hbox & Hstore).
    fold user projected in Hbox. rewrite Hsent, Hout in Hbox.
    split; [exact Hbox|].
    destruct Hstore as [Hs|[c Hs]]; fold w' in Hs; rewrite Hs;
      rewrite !getitem_update, !String.eqb_refl, Hget; simpl;
      eexists; (split; [reflexivity|]); simpl.
    + left. reflexivity.
    + right. rewrite <- app_assoc. simpl. eauto.
Qed.

(** C6. During a turn the session stays under its identifier with its
    [model] and [created_at]; storing the user message leaves
    [last_updated] as it was (this is all the streaming handler does before
    it answers), and [last_updated] is set to the current time exactly in
    the runs that also store the assistant message. *)
Theorem turn_frame (request : ChatRequest) (w w0 : World)
    (sid : string) (s0 : Session) :
  session_id_or_create request w = (Return sid, w0) ->
  dict_getitem sid (chat_sessions w0) = Some s0 ->
  let user := mkMessage "user" (JStr (req_message request)) (clock (ticks w0)) in
  (exists g w1,
      chat_stream request w = (Return g, w1) /\
      dict_getitem sid (chat_sessions w1) =
      Some (mkSession (model s0) (messages s0 ++ [user]) (created_at s0)
              (last_updated s0))) /\
  (forall ollama,
      model s0 = req_model request ->
      exists s',
        dict_getitem sid (chat_sessions (snd (chat_with_model ollama request w)))
        = Some s' /\
        model s' = model s0 /\ created_at s' = created_at s0 /\
        ((messages s' = messages s0 ++ [user] /\
          last_updated s' = last_updated s0) \/
         (exists c,
             messages s' =
             messages s0 ++ [user; mkMessage "assistant" c (clock (S (ticks w0)))] /\
             last_updated s' = clock (S (S (ticks w0)))))) /\
  (forall ollama,
      exists s',
        dict_getitem sid (chat_sessions (snd (stream_turn ollama request w)))
        = Some s' /\
        model s' = model s0 /\ created_at s' = created_at s0 /\
        ((messages s' = messages s0 ++ [user] /\
          last_updated s' = last_updated s0) \/
         (exists c,
             messages s' =
             messages s0 ++ [user; mkMessage "assistant" c (clock (S (ticks w0)))] /\
             last_updated s' = clock (S (S (ticks w0)))))).
Proof.
  intros Hres Hget user.
  split; [|split].
  - rewrite (chat_stream_resolved _ _ _ _ _ Hres Hget). fold user.
    eexists _, _. split; [reflexivity|]. simpl.
    rewrite getitem_update, String.eqb_refl, Hget. reflexivity.
  - intros ollama Hmodel.
    destruct (chat_with_model_store ollama _ _ _ _ _ Hres Hget Hmodel)
      as (_ & _ & [Hs|[c Hs]]); fold user in Hs; rewrite Hs;
      rewrite !getitem_update, !String.eqb_refl, Hget; simpl;
      eexists; (split; [reflexivity|]); simpl;
      (split; [reflexivity|]); (split; [reflexivity|]).
    + left. auto.
    + right. exists c. rewrite <- app_assoc. simpl. auto.
  - intros ollama.
    destruct (stream_turn_store ollama _ _ _ _ _ Hres Hget)
      as (_ & _ & [Hs|[c Hs]]); fold user in Hs; rewrite Hs;
      rewrite !getitem_update, !String.eqb_refl, Hget; simpl;
      eexists; (split; [reflexivity|]); simpl;
      (split; [reflexivity|]); (split; [reflexivity|]).
    + left. auto.
    + right. exists (JStr c). rewrite <- app_assoc. simpl. auto.
Qed.

(** C7. [list_sessions] answers with one entry per stored session and does
    not change the world, so a second call gives the same list; a session
    with a later [last_updated] is listed before, and never after, one with
    an earlier [last_updated]; sessions with equal [last_updated] keep the
    order they have in the dictionary. *)
Theorem list_sessions_order (w : World) :
  exists out,
    list_sessions w = (Return out, w) /\
    list_sessions (snd (list_sessions w)) = list_sessions w /\
    Permutation out (map session_info (chat_sessions w)) /\
    (forall ida a idb b,
        In (ida, a) (chat_sessions w) -> In (idb, b) (chat_sessions w) ->
        last_updated a > last_updated b ->
        before_in (session_info (ida, a)) (session_info (idb, b)) out /\
        ~ before_in (session_info (idb, b)) (session_info (ida, a)) out) /\
    (forall t,
        filter (fun x => info_last_updated x =? t) out =
        filter (fun x => info_last_updated x =? t)
          (map session_info (chat_sessions w))).
Proof.
  exists (sorted_desc (map session_info (chat_sessions w))).
  split; [reflexivity|]. split; [reflexivity|].
  split; [apply sorted_desc_perm|]. split.
  - intros ida a idb b Ha Hb Hgt.
    apply sorted_before.
    + apply sorted_desc_sorted.
    + apply (Permutation_in _ (Permutation_sym (sorted_desc_perm _))).
      apply in_map. exact Ha.
    + apply (Permutation_in _ (Permutation_sym (sorted_desc_perm _))).
      apply in_map. exact Hb.
    + exact Hgt.
  - intros t. apply sorted_desc_stable.
Qed.

(** C8. A blocking request without a session id, answered by the backend
    with a success body whose [message.content] is the string [c], returns
    [c] as response together with the generated session id and the
    requested model; the session then holds exactly two messages, the user
    message and the assistant message with content [c]. *)
Theorem first_turn_creates_session (ollama : Payload -> Reply)
    (request : ChatRequest) (w : World) (text : string)
    (data message : json) (c : string) :
  req_session_id request = None ->
  ollama (mkPayload (req_model request)
            (with_system_prompt (req_system_prompt request)
               [("user", JStr (req_message request))])
            false) = Success text ->
  json_loads text = Some data ->
  py_getitem data "message" = Return message ->
  py_getitem message "content" = Return (JStr c) ->
  exists w',
    chat_with_model ollama request w =
    (Return (mkChatResponse c (uuid4 (uuids w)) (req_model request)
               (clock (5 + ticks w))), w') /\
    dict_getitem (uuid4 (uuids w)) (chat_sessions w') =
    Some (mkSession (req_model request)
            [mkMessage "user" (JStr (req_message request)) (clock (2 + ticks w));
             mkMessage "assistant" (JStr c) (clock (3 + ticks w))]
            (clock (ticks w)) (clock (4 + ticks w))).
Proof.
  intros Hnone Hreply Hloads Hmsg Hcontent.
  assert (Hres : session_id_or_create request w =
                 create_session (req_model request) w).
  { apply session_id_or_create_fresh. rewrite Hnone. reflexivity. }
  rewrite create_session_run in Hres.
  match type of Hres with
  | _ = (Return ?sid, ?w0) =>
      assert (Hget : dict_getitem sid (chat_sessions w0) =
                     Some (mkSession (req_model request) [] (clock (ticks w))
                             (clock (S (ticks w)))))
  end.
  { simpl. rewrite getitem_setitem, String.eqb_refl. reflexivity. }
  rewrite (chat_with_model_resolved ollama _ _ _ _ _ Hres Hget eq_refl).
  cbn [messages ticks app map role content].
  rewrite Hreply.
  unfold message_content, loads. rewrite Hloads, Hmsg, Hcontent.
  cbn [ChatResponse_init].
  eexists. split; [reflexivity|].
  cbn [chat_sessions].
  rewrite !getitem_update, !String.eqb_refl, getitem_setitem, String.eqb_refl.
  reflexivity.
Qed.

(** C10. A request whose session id is the empty string is handled as a
    request without session id, by the blocking and by the streaming
    handler: the session is created under a generated identifier and bound
    to the requested model, and the user message is stored in it. *)
Theorem empty_session_id_creates_session (message model_name : string)
    (prompt : option string) (w : World) :
  (forall ollama,
      chat_with_model ollama (mkChatRequest message model_name (Some "") prompt) w =
      chat_with_model ollama (mkChatRequest message model_name None prompt) w) /\
  chat_stream (mkChatRequest message model_name (Some "") prompt) w =
  chat_stream (mkChatRequest message model_name None prompt) w /\
  (exists g w',
      chat_stream (mkChatRequest message model_name (Some "") prompt) w =
      (Return g, w') /\
      gen_session_id g = uuid4 (uuids w) /\
      dict_getitem (uuid4 (uuids w)) (chat_sessions w') =
      Some (mkSession model_name
              [mkMessage "user" (JStr message) (clock (2 + ticks w))]
              (clock (ticks w)) (clock (1 + ticks w)))) /\
  (forall ollama,
      exists s',
        dict_getitem (uuid4 (uuids w))
          (chat_sessions
             (snd (chat_with_model ollama
                     (mkChatRequest message model_name (Some "") prompt) w)))
        = Some s' /\
        model s' = model_name /\
        exists tail,
          messages s' = mkMessage "user" (JStr message) (clock (2 + ticks w)) :: tail).
Proof.
  set (request := mkChatRequest message model_name (Some "") prompt).
  assert (Hres : session_id_or_create request w = create_session model_name w)
    by reflexivity.
  rewrite create_session_run in Hres.
  match type of Hres with
  | _ = (Return ?sid, ?w0) =>
      assert (Hget : dict_getitem sid (chat_sessions w0) =
                     Some (mkSession model_name [] (clock (ticks w))
                             (clock (S (ticks w)))))
  end.
  { simpl. rewrite getitem_setitem, String.eqb_refl. reflexivity. }
  split; [reflexivity|]. split; [reflexivity|]. split.
  - rewrite (chat_stream_resolved _ _ _ _ _ Hres Hget).
    eexists _, _. split; [reflexivity|]. split; [reflexivity|].
    cbn [chat_sessions].
    rewrite getitem_update, String.eqb_refl, getitem_setitem, String.eqb_refl.
    reflexivity.
  - intros ollama.
    destruct (chat_with_model_store ollama _ _ _ _ _ Hres Hget eq_refl)
      as (_ & _ & [Hs|[c Hs]]); rewrite Hs; cbn [chat_sessions];
      rewrite !getitem_update, !String.eqb_refl, getitem_setitem, String.eqb_refl;
      simpl; eexists; (split; [reflexivity|]); simpl; eauto.
Qed.

(** ** Status codes *)

Lemma get_session_unknown (sid : string) (w : World) :
  dict_getitem sid (chat_sessions w) = None ->
  get_session sid w = (Raise (HTTPException 404 "Session not found"), w).
Proof.
  intros H. unfold get_session. unfold_monad.
  rewrite contains_getitem, H. reflexivity.
Qed.

Lemma delete_session_unknown (sid : string) (w : World) :
  dict_getitem sid (chat_sessions w) = None ->
  delete_session sid w = (Raise (HTTPException 404 "Session not found"), w).
Proof.
  intros H. unfold delete_session. unfold_monad.
  rewrite contains_getitem, H. reflexivity.
Qed.

(** Scenario D of the specification: after [delete_session] the session is
    not found. *)
Lemma deleted_session_not_found (sid : string) (w : World) :
  NoDup (dict_keys (chat_sessions w)) ->
  http_status (fst (get_session sid (snd (delete_session sid w)))) = 404.
Proof.
  intros Hnd. rewrite delete_session_world.
  destruct (dict_contains sid (chat_sessions w)) eqn:Hc.
  - rewrite get_session_unknown; [reflexivity|].
    simpl. rewrite (getitem_delitem _ _ _ _ Hnd), String.eqb_refl. reflexivity.
  - rewrite get_session_unknown; [reflexivity|].
    rewrite contains_getitem in Hc.
    destruct (dict_getitem sid (chat_sessions w)); [discriminate|reflexivity].
Qed.

(** In a blocking turn on a resolved session an unreachable backend is
    answered with 503 and a failure status of the backend is passed on
    with its text. *)
Lemma chat_backend_failures (ollama : Payload -> Reply)
    (request : ChatRequest) (w w0 : World) (sid : string) (s0 : Session) :
  session_id_or_create request w = (Return sid, w0) ->
  dict_getitem sid (chat_sessions w0) = Some s0 ->
  model s0 = req_model request ->
  let user := mkMessage "user" (JStr (req_message request)) (clock (ticks w0)) in
  let payload :=
    mkPayload (req_model request)
      (with_system_prompt (req_system_prompt request)
         (map (fun msg => (role msg, content msg)) (messages s0 ++ [user])))
      false in
  (ollama payload = Unreachable ->
   fst (chat_with_model ollama request w) =
   Raise (HTTPException 503 "Ollama server is not available")) /\
  (forall code text,
      ollama payload = ErrorStatus code text ->
      fst (chat_with_model ollama request w) =
      Raise (HTTPException code ("Ollama error: " ++ text))).
Proof.
  intros Hres Hget Hmodel user payload.
  rewrite (chat_with_model_resolved ollama _ _ _ _ _ Hres Hget Hmodel).
  fold user payload.
  split; [intros ->|intros code text ->]; reflexivity.
Qed.

(** [create_new_session] answers 400 for a model the backend does not
    list. *)
Lemma create_new_session_unavailable (text m : string) (data : json)
    (models : list json) (names : list json) (w : World) :
  json_loads text = Some data ->
  py_get data "models" (JArr []) = Return (JArr models) ->
  model_names models = Return names ->
  existsb (is_JStr m) names = false ->
  create_new_session (Success text) m w =
  (Raise (HTTPException 400 ("Model '" ++ m ++ "' not available")), w).
Proof.
  intros Hl Hm Hn Hex.
  unfold create_new_session, create_new_session_body, loads. unfold_monad.
  rewrite Hl, Hm. cbn [py_iter]. rewrite Hn, Hex. reflexivity.
Qed.

(** ** Further properties of the chat handlers *)

Lemma message_content_raises (text : string) (e : exn) :
  message_content text = Raise e ->
  e = JSONDecodeError \/ e = TypeError \/ exists k, e = KeyError k.
Proof.
  unfold message_content, loads.
  destruct (json_loads text) as [data|]; [|intros H; inversion H; auto].
  assert (Hget : forall v k e', py_getitem v k = Raise e' ->
                                e' = TypeError \/ exists k', e' = KeyError k').
  { intros v k e'. destruct v; simpl; try solve [intros H; inversion H; auto].
    destruct (dict_getitem k kvs); intros H; inversion H; eauto. }
  destruct (py_getitem data "message") as [message|e1] eqn:E1.
  - intros H. right. eapply Hget; eauto.
  - intros H. inversion H; subst. right. eapply Hget; eauto.
Qed.

(** X1. A blocking turn whose call to the backend fails (backend
    unreachable, error status, or a success body without a readable
    [message.content]) is answered with 503, with the backend's status, or
    with 500; the user message appended before the call stays in the
    history, nothing else of the session changes, and one body was
    posted. *)
Theorem failed_backend_call_keeps_user_message (ollama : Payload -> Reply)
    (request : ChatRequest) (w w0 : World) (sid : string) (s0 : Session) :
  session_id_or_create request w = (Return sid, w0) ->
  dict_getitem sid (chat_sessions w0) = Some s0 ->
  model s0 = req_model request ->
  let user := mkMessage "user" (JStr (req_message request)) (clock (ticks w0)) in
  let payload :=
    mkPayload (req_model request)
      (with_system_prompt (req_system_prompt request)
         (map (fun msg => (role msg, content msg)) (messages s0 ++ [user])))
      false in
  (ollama payload = Unreachable \/
   (exists code text, ollama payload = ErrorStatus code text) \/
   (exists text e, ollama payload = Success text /\
                   message_content text = Raise e)) ->
  http_status (fst (chat_with_model ollama request w)) =
    match ollama payload with
    | Unreachable => 503
    | ErrorStatus code _ => code
    | Success _ => 500
    end /\
  dict_getitem sid (chat_sessions (snd (chat_with_model ollama request w))) =
    Some (mkSession (model s0) (messages s0 ++ [user]) (created_at s0)
            (last_updated s0)) /\
  outbox (snd (chat_with_model ollama request w)) = outbox w0 ++ [payload].
Proof.
  intros Hres Hget Hmodel user payload Hfail.
  rewrite (chat_with_model_resolved ollama _ _ _ _ _ Hres Hget Hmodel).
  fold user payload.
  assert (Hstore : dict_getitem sid
                     (dict_update sid (append_message user) (chat_sessions w0)) =
                   Some (mkSession (model s0) (messages s0 ++ [user])
                           (created_at s0) (last_updated s0))).
  { rewrite getitem_update, String.eqb_refl, Hget. reflexivity. }
  destruct Hfail as [->|[(code & text & ->)|(text & e & -> & He)]].
  - simpl. auto.
  - simpl. auto.
  - rewrite He.
    destruct (message_content_raises _ _ He) as [->|[->|[k ->]]]; simpl; auto.
Qed.

(** X2. A request that names a session which is not stored (either
    handler), or a stored session bound to another model (blocking
    handler), is rejected with status 500 before anything happens: the
    world is exactly as before, so nothing is stored, nothing is posted to
    the backend and the clock is not read. *)
Theorem rejected_request_changes_nothing (request : ChatRequest) (w : World)
    (sid : string) :
  req_session_id request = Some sid -> sid <> "" ->
  (dict_getitem sid (chat_sessions w) = None ->
   (forall ollama,
       snd (chat_with_model ollama request w) = w /\
       http_status (fst (chat_with_model ollama request w)) = 500) /\
   snd (chat_stream request w) = w /\
   http_status (fst (chat_stream request w)) = 500) /\
  (forall s,
      dict_getitem sid (chat_sessions w) = Some s ->
      model s <> req_model request ->
      forall ollama,
        snd (chat_with_model ollama request w) = w /\
        http_status (fst (chat_with_model ollama request w)) = 500).
Proof.
  intros Hid Hne.
  pose proof (session_id_or_create_given request sid w Hid Hne) as Hres.
  split.
  - intros Hnone. split; [intros ollama|].
    + rewrite (chat_with_model_unknown ollama _ _ _ _ Hres Hnone). auto.
    + rewrite (chat_stream_unknown _ _ _ _ Hres Hnone). auto.
  - intros s Hs Hm ollama.
    rewrite (chat_with_model_mismatch ollama _ _ _ _ _ Hres Hs Hm). auto.
Qed.

Lemma getitem_update_other V (k k' : string) (f : V -> V) (d : dict V) :
  k' <> k -> dict_getitem k' (dict_update k f d) = dict_getitem k' d.
Proof.
  intros Hne. rewrite getitem_update.
  destruct (String.eqb k k') eqn:E; [|reflexivity].
  apply String.eqb_eq in E. congruence.
Qed.

Lemma session_id_or_create_other (request : ChatRequest) (w w0 : World)
    (sid sid' : string) :
  session_id_or_create request w = (Return sid, w0) -> sid' <> sid ->
  dict_getitem sid' (chat_sessions w0) = dict_getitem sid' (chat_sessions w).
Proof.
  intros Hres Hne.
  destruct (session_id_or_create_world _ _ _ _ Hres) as [_ [->|[Hsid ->]]];
    [reflexivity|].
  simpl. rewrite getitem_setitem.
  destruct (String.eqb sid sid') eqn:E; [|reflexivity].
  apply String.eqb_eq in E. congruence.
Qed.

(** X3. A turn, blocking or streaming, touches no session but the one it
    resolves to: every other identifier is bound after the turn to what it
    was bound to before, or still unbound. *)
Theorem turn_leaves_other_sessions (request : ChatRequest) (w w0 : World)
    (sid : string) :
  session_id_or_create request w = (Return sid, w0) ->
  forall sid', sid' <> sid ->
    (forall ollama,
        dict_getitem sid' (chat_sessions (snd (chat_with_model ollama request w)))
        = dict_getitem sid' (chat_sessions w)) /\
    (forall ollama,
        dict_getitem sid' (chat_sessions (snd (stream_turn ollama request w)))
        = dict_getitem sid' (chat_sessions w)).
Proof.
  intros Hres sid' Hne.
  pose proof (session_id_or_create_other _ _ _ _ _ Hres Hne) as H0.
  split; intros ollama.
  - destruct (dict_getitem sid (chat_sessions w0)) as [s0|] eqn:Hget.
    + destruct (String.eqb (model s0) (req_model request)) eqn:Hm.
      * apply String.eqb_eq in Hm.
        destruct (chat_with_model_store ollama _ _ _ _ _ Hres Hget Hm)
          as (_ & _ & [Hs|[c Hs]]); rewrite Hs;
          rewrite ?getitem_update_other by exact Hne; exact H0.
      * apply String.eqb_neq in Hm.
        rewrite (chat_with_model_mismatch ollama _ _ _ _ _ Hres Hget Hm).
        exact H0.
    + rewrite (chat_with_model_unknown ollama _ _ _ _ Hres Hget). exact H0.
  - destruct (dict_getitem sid (chat_sessions w0)) as [s0|] eqn:Hget.
    + destruct (stream_turn_store ollama _ _ _ _ _ Hres Hget)
        as (_ & _ & [Hs|[c Hs]]); rewrite Hs;
        rewrite ?getitem_update_other by exact Hne; exact H0.
    + unfold stream_turn. rewrite (chat_stream_unknown _ _ _ _ Hres Hget).
      exact H0.
Qed.

(** X4. The blocking handler stores the assistant message before it builds
    its answer: when the backend's [message.content] is a value the [str]
    field [response] does not accept (null, say), the request is answered
    with 500 although the value has been appended to the history as the
    assistant message and [last_updated] has been set. *)
Theorem unaccepted_content_is_stored_before_the_500
    (ollama : Payload -> Reply) (request : ChatRequest) (w w0 : World)
    (sid : string) (s0 : Session) (text : string) (c : json) :
  session_id_or_create request w = (Return sid, w0) ->
  dict_getitem sid (chat_sessions w0) = Some s0 ->
  model s0 = req_model request ->
  let user := mkMessage "user" (JStr (req_message request)) (clock (ticks w0)) in
  ollama (mkPayload (req_model request)
            (with_system_prompt (req_system_prompt request)
               (map (fun msg => (role msg, content msg)) (messages s0 ++ [user])))
            false) = Success text ->
  message_content text = Return c ->
  (forall s, c <> JStr s) -> coerce_str c = None ->
  fst (chat_with_model ollama request w) =
    Raise (HTTPException 500 ("Chat error: " ++ exc_str ValidationError)) /\
  dict_getitem sid (chat_sessions (snd (chat_with_model ollama request w))) =
    Some (mkSession (model s0)
            (messages s0 ++
             [user; mkMessage "assistant" c (clock (1 + ticks w0))])
            (created_at s0) (clock (2 + ticks w0))).
Proof.
  intros Hres Hget Hmodel user Hreply Hcontent Hnostr Hcoerce.
  rewrite (chat_with_model_resolved ollama _ _ _ _ _ Hres Hget Hmodel).
  fold user. rewrite Hreply, Hcontent.
  assert (Hinit : forall sid' m t,
             ChatResponse_init c sid' m t = Raise ValidationError).
  { intros sid' m t. unfold ChatResponse_init.
    destruct c; try (rewrite Hcoerce; reflexivity).
    elim (Hnostr s). reflexivity. }
  cbv zeta. rewrite Hinit. cbn [chat_with_model_except raise fst snd chat_sessions].
  split; [reflexivity|].
  rewrite !getitem_update, !String.eqb_refl, Hget. simpl.
  unfold set_last_updated, append_message. simpl.
  rewrite <- app_assoc. reflexivity.
Qed.

(** X5. A streaming turn that reaches its done chunk leaves the dictionary
    of sessions exactly as the blocking turn for the same request does when
    the backend's blocking reply is the concatenation of the streamed
    fragments: same two messages, same timestamps, same [last_updated]. *)
Theorem completed_stream_stores_what_blocking_stores
    (blocking : Payload -> Reply) (streaming : Payload -> StreamReply)
    (request : ChatRequest) (w w0 : World) (sid : string) (s0 : Session)
    (text : string) (chunks : list Chunk) (w_s : World) :
  session_id_or_create request w = (Return sid, w0) ->
  dict_getitem sid (chat_sessions w0) = Some s0 ->
  model s0 = req_model request ->
  let user := mkMessage "user" (JStr (req_message request)) (clock (ticks w0)) in
  blocking (mkPayload (req_model request)
              (with_system_prompt (req_system_prompt request)
                 (map (fun msg => (role msg, content msg)) (messages s0 ++ [user])))
              false) = Success text ->
  message_content text = Return (JStr (fragments chunks)) ->
  stream_turn streaming request w = (Return (chunks, None), w_s) ->
  In (DoneChunk sid) chunks ->
  chat_sessions (snd (chat_with_model blocking request w)) = chat_sessions w_s.
Proof.
  intros Hres Hget Hmodel user Hreply Hcontent Hstream Hdone.
  rewrite (chat_with_model_resolved blocking _ _ _ _ _ Hres Hget Hmodel).
  fold user. rewrite Hreply, Hcontent. cbn [ChatResponse_init snd chat_sessions].
  unfold stream_turn in Hstream.
  rewrite (chat_stream_resolved _ _ _ _ _ Hres Hget) in Hstream. fold user in Hstream.
  unfold generate in Hstream. cbn [gen_model gen_messages gen_session_id] in Hstream.
  destruct (streaming _) as [|code txt|ls dropped]; try discriminate.
  match type of Hstream with
  | context [generate_loop ?a ?b ?c ?d ?e] =>
      destruct (generate_loop a b c d e) as [[chunks' ex] w2] eqn:Hrun
  end.
  inversion Hstream; subst chunks' ex w2. clear Hstream.
  destruct (generate_loop_outcome _ _ _ _ _ _ _ _ Hrun)
    as [(cs & -> & Hcs & _ & -> & _)|[Hcs _]].
  - rewrite commit_response_run. cbn [snd chat_sessions ticks].
    rewrite fragments_app. cbn [fragments append].
    rewrite string_app_nil_r. reflexivity.
  - destruct (Hcs _ Hdone) as [s Hs]. discriminate.
Qed.

(** X6. A backend that cannot be reached, or answers with an error status,
    does not change the answer of the streaming handler: the handler has
    returned its streaming response before the call is made.  The
    generator then yields no chunk and ends with the client's exception,
    and the session keeps the user message. *)
Theorem stream_backend_failure_comes_after_the_answer
    (ollama : Payload -> StreamReply) (request : ChatRequest) (w w0 : World)
    (sid : string) (s0 : Session) :
  session_id_or_create request w = (Return sid, w0) ->
  dict_getitem sid (chat_sessions w0) = Some s0 ->
  let user := mkMessage "user" (JStr (req_message request)) (clock (ticks w0)) in
  let payload :=
    mkPayload (req_model request)
      (with_system_prompt (req_system_prompt request)
         (map (fun msg => (role msg, content msg)) (messages s0 ++ [user])))
      true in
  (ollama payload = StreamUnreachable \/
   exists code text, ollama payload = StreamErrorStatus code text) ->
  exists g w1 e w',
    chat_stream request w = (Return g, w1) /\
    generate ollama g w1 = (([], Some e), w') /\
    (ollama payload = StreamUnreachable /\ e = RequestError \/
     exists code text, ollama payload = StreamErrorStatus code text /\
                       e = HTTPStatusError code text) /\
    dict_getitem sid (chat_sessions w') =
    Some (mkSession (model s0) (messages s0 ++ [user]) (created_at s0)
            (last_updated s0)).
Proof.
  intros Hres Hget user payload Hfail.
  rewrite (chat_stream_resolved _ _ _ _ _ Hres Hget). fold user.
  assert (Hstore : dict_getitem sid
                     (dict_update sid (append_message user) (chat_sessions w0)) =
                   Some (mkSession (model s0) (messages s0 ++ [user])
                           (created_at s0) (last_updated s0))).
  { rewrite getitem_update, String.eqb_refl, Hget. reflexivity. }
  destruct Hfail as [Hu|(code & text & Hs)].
  - eexists _, _, _, _. split; [reflexivity|].
    unfold generate. cbn [gen_model gen_messages gen_session_id].
    fold payload. rewrite Hu.
    split; [reflexivity|]. split; [left; auto|exact Hstore].
  - eexists _, _, _, _. split; [reflexivity|].
    unfold generate. cbn [gen_model gen_messages gen_session_id].
    fold payload. rewrite Hs.
    split; [reflexivity|]. split; [right; eauto|exact Hstore].
Qed.

(** X7. The reply of a completed blocking turn is part of what the next
    turn on the same session posts: the body of the next turn carries the
    earlier history, the first user message, the assistant message just
    stored and the new user message, in this order, and a system entry only
    for the system prompt of the next request. *)
Theorem next_turn_posts_the_reply (first next : Payload -> Reply)
    (request request2 : ChatRequest) (w w0 : World) (sid : string)
    (s0 : Session) (text : string) (c : json) :
  session_id_or_create request w = (Return sid, w0) ->
  dict_getitem sid (chat_sessions w0) = Some s0 ->
  model s0 = req_model request ->
  let user := mkMessage "user" (JStr (req_message request)) (clock (ticks w0)) in
  first (mkPayload (req_model request)
           (with_system_prompt (req_system_prompt request)
              (map (fun msg => (role msg, content msg)) (messages s0 ++ [user])))
           false) = Success text ->
  message_content text = Return c ->
  req_session_id request2 = Some sid -> sid <> "" ->
  req_model request2 = req_model request ->
  let w1 := snd (chat_with_model first request w) in
  let assistant := mkMessage "assistant" c (clock (1 + ticks w0)) in
  let user2 :=
    mkMessage "user" (JStr (req_message request2)) (clock (4 + ticks w0)) in
  outbox (snd (chat_with_model next request2 w1)) =
  outbox w1 ++
  [mkPayload (req_model request2)
     (with_system_prompt (req_system_prompt request2)
        (map (fun msg => (role msg, content msg))
           (messages s0 ++ [user; assistant; user2])))
     false].
Proof.
  intros Hres Hget Hmodel user Hreply Hcontent Hid2 Hne Hmodel2 w1 assistant user2.
  set (w2 :=
         mkWorld
           (dict_update sid (set_last_updated (clock (S (S (ticks w0)))))
              (dict_update sid (append_message assistant)
                 (dict_update sid (append_message user) (chat_sessions w0))))
           (S (S (S (S (ticks w0))))) (uuids w0)
           (outbox w0 ++
            [mkPayload (req_model request)
               (with_system_prompt (req_system_prompt request)
                  (map (fun msg => (role msg, content msg))
                     (messages s0 ++ [user])))
               false])).
  assert (Hw1 : w1 = w2).
  { unfold w1.
    rewrite (chat_with_model_resolved first _ _ _ _ _ Hres Hget Hmodel).
    fold user. rewrite Hreply, Hcontent. cbv zeta.
    destruct (ChatResponse_init _ _ _ _) as [r|e]; [reflexivity|].
    match goal with
    | |- context [chat_with_model_except ?e ?w] =>
        destruct (chat_with_model_except_run e w) as [e' ->]
    end. reflexivity. }
  rewrite Hw1.
  pose proof (session_id_or_create_given request2 sid w2 Hid2 Hne) as Hres2.
  assert (Hget2 : dict_getitem sid (chat_sessions w2) =
                  Some (mkSession (model s0) (messages s0 ++ [user; assistant])
                          (created_at s0) (clock (S (S (ticks w0)))))).
  { unfold w2. cbn [chat_sessions].
    rewrite !getitem_update, !String.eqb_refl, Hget. simpl.
    unfold set_last_updated, append_message. simpl.
    rewrite <- app_assoc. reflexivity. }
  destruct (chat_with_model_store next _ _ _ _ _ Hres2 Hget2
              (eq_trans Hmodel (eq_sym Hmodel2))) as (_ & Hbox & _).
  rewrite Hbox. cbn [messages].
  rewrite <- app_assoc. reflexivity.
Qed.

(** X8. The loop of the generator passes over an empty line wherever it
    stands in the stream: the run is the run of the stream without it. *)
Theorem generate_loop_skips_empty_lines (sid : string) (before : list string) :
  forall (after : list string) (dropped : bool) (full : string) (w : World),
    generate_loop sid (before ++ "" :: after) dropped full w =
    generate_loop sid (before ++ after) dropped full w.
Proof.
  induction before as [|l before IH]; intros after dropped full w.
  - apply generate_loop_empty_line.
  - simpl app. destruct (String.eqb l "") eqn:Hne.
    + apply String.eqb_eq in Hne. subst.
      rewrite !generate_loop_empty_line. apply IH.
    + destruct (line_body sid l full w) as [[[cs full'] fl] w1] eqn:Hbody.
      rewrite !(generate_loop_cons _ _ _ _ _ _ _ _ _ _ Hne Hbody).
      rewrite (IH after dropped full' w1). reflexivity.
Qed.

(** ** Further properties of the session endpoints *)

Lemma in_getitem V (k : string) (v : V) (d : dict V) :
  NoDup (dict_keys d) -> In (k, v) d -> dict_getitem k d = Some v.
Proof.
  induction d as [|[k0 v0] d IH]; simpl; intros ND Hin; [destruct Hin|].
  inversion ND as [|? ? Hnin ND']; subst.
  destruct Hin as [Heq|Hin].
  - inversion Heq; subst. rewrite String.eqb_refl. reflexivity.
  - destruct (String.eqb k k0) eqn:E.
    + apply String.eqb_eq in E. subst k0. elim Hnin.
      change k with (fst (k, v)). apply in_map. exact Hin.
    + apply IH; assumption.
Qed.

Lemma getitem_in V (k : string) (v : V) (d : dict V) :
  dict_getitem k d = Some v -> In (k, v) d.
Proof.
  induction d as [|[k0 v0] d IH]; simpl; [discriminate|].
  destruct (String.eqb k k0) eqn:E.
  - apply String.eqb_eq in E. subst. intros H. inversion H. auto.
  - auto.
Qed.

Lemma length_delitem V (k : string) (d : dict V) :
  dict_contains k d = true ->
  S (List.length (dict_delitem k d)) = List.length d.
Proof.
  induction d as [|[k0 v0] d IH]; simpl; [discriminate|].
  destruct (String.eqb k k0); simpl; [reflexivity|].
  intros H. rewrite IH by exact H. reflexivity.
Qed.

Lemma length_sorted_desc (l : list SessionInfo) :
  List.length (sorted_desc l) = List.length l.
Proof. apply Permutation_length, sorted_desc_perm. Qed.

(** X9. On a dictionary with unique keys, deleting a stored session answers
    with the success message and removes that session only: reading or
    deleting it again is answered with 404, every other identifier is bound
    as before, and the listing has one entry less. *)
Theorem delete_session_removes_only_it (sid : string) (s : Session) (w : World) :
  NoDup (dict_keys (chat_sessions w)) ->
  dict_getitem sid (chat_sessions w) = Some s ->
  exists w',
    delete_session sid w = (Return "Session deleted successfully", w') /\
    fst (get_session sid w') = Raise (HTTPException 404 "Session not found") /\
    fst (delete_session sid w') = Raise (HTTPException 404 "Session not found") /\
    (forall sid', sid' <> sid ->
                  dict_getitem sid' (chat_sessions w') =
                  dict_getitem sid' (chat_sessions w)) /\
    (forall out out',
        fst (list_sessions w) = Return out ->
        fst (list_sessions w') = Return out' ->
        List.length out = S (List.length out')).
Proof.
  intros Hnd Hget.
  assert (Hc : dict_contains sid (chat_sessions w) = true)
    by (rewrite contains_getitem, Hget; reflexivity).
  exists (mkWorld (dict_delitem sid (chat_sessions w)) (ticks w) (uuids w) (outbox w)).
  assert (Hgone : dict_getitem sid (dict_delitem sid (chat_sessions w)) = None).
  { rewrite (getitem_delitem _ _ _ _ Hnd), String.eqb_refl. reflexivity. }
  split; [|split; [|split; [|split]]].
  - unfold delete_session. unfold_monad. rewrite Hc. reflexivity.
  - rewrite get_session_unknown; [reflexivity|exact Hgone].
  - rewrite delete_session_unknown; [reflexivity|exact Hgone].
  - intros sid' Hne. simpl. rewrite (getitem_delitem _ _ _ _ Hnd).
    destruct (String.eqb sid sid') eqn:E; [|reflexivity].
    apply String.eqb_eq in E. congruence.
  - intros out out' Hout Hout'. simpl in Hout, Hout'.
    inversion Hout; inversion Hout'; subst.
    rewrite !length_sorted_desc, !length_map.
    symmetry. apply length_delitem. exact Hc.
Qed.

(** X10. The listing and [get_session] agree on a dictionary with unique
    keys: every entry listed names a session that [get_session] returns with
    the same model and timestamps and with as many messages as the entry
    counts; every session [get_session] returns is listed; and no
    identifier is listed twice. *)
Theorem list_and_get_agree (w : World) (out : list SessionInfo) :
  NoDup (dict_keys (chat_sessions w)) ->
  fst (list_sessions w) = Return out ->
  (forall e,
      In e out ->
      exists msgs,
        get_session (info_session_id e) w =
        (Return (mkSessionDetails (info_session_id e) (info_model e)
                   (info_created_at e) (info_last_updated e) msgs), w) /\
        List.length msgs = message_count e) /\
  (forall sid d,
      fst (get_session sid w) = Return d ->
      In (mkSessionInfo sid (det_model d) (det_created_at d)
            (det_last_updated d) (List.length (det_messages d))) out) /\
  NoDup (map info_session_id out).
Proof.
  intros Hnd Hout. simpl in Hout. inversion Hout; subst out. clear Hout.
  pose proof (sorted_desc_perm (map session_info (chat_sessions w))) as Hperm.
  split; [|split].
  - intros e He.
    apply (Permutation_in _ Hperm) in He.
    apply in_map_iff in He. destruct He as ([sid s] & <- & Hin).
    pose proof (in_getitem _ _ _ _ Hnd Hin) as Hget.
    exists (messages s). split; [|reflexivity].
    cbn [session_info info_session_id info_model info_created_at
         info_last_updated fst snd].
    unfold get_session. unfold_monad.
    rewrite contains_getitem, Hget. simpl. rewrite Hget. reflexivity.
  - intros sid d Hd.
    unfold get_session in Hd. unfold_monad.
    rewrite contains_getitem in Hd.
    destruct (dict_getitem sid (chat_sessions w)) as [s|] eqn:Hget;
      simpl in Hd; [|discriminate].
    rewrite Hget in Hd. simpl in Hd. inversion Hd; subst d. simpl.
    apply (Permutation_in _ (Permutation_sym Hperm)).
    apply (in_map session_info _ (sid, s)). apply getitem_in. exact Hget.
  - apply (Permutation_NoDup (l := map info_session_id
                                      (map session_info (chat_sessions w)))).
    + apply Permutation_map, Permutation_sym, Hperm.
    + rewrite map_map. exact Hnd.
Qed.

(** ** Properties of the handlers that query /api/tags *)

Lemma loads_raises (text : string) (e : exn) :
  loads text = Raise e -> plain_exn e.
Proof.
  unfold loads. destruct (json_loads text); intros H; inversion H. exact I.
Qed.

Lemma py_getitem_raises (v : json) (k : string) (e : exn) :
  py_getitem v k = Raise e -> plain_exn e.
Proof.
  destruct v; simpl; try solve [intros H; inversion H; exact I].
  destruct (dict_getitem k kvs); intros H; inversion H. exact I.
Qed.

Lemma py_get_raises (v : json) (k : string) (d : json) (e : exn) :
  py_get v k d = Raise e -> plain_exn e.
Proof.
  destruct v; simpl; try solve [intros H; inversion H; exact I].
  destruct (dict_getitem k kvs); intros H; inversion H.
Qed.

Lemma py_iter_raises (v : json) (e : exn) :
  py_iter v = Raise e -> plain_exn e.
Proof. destruct v; simpl; intros H; inversion H; exact I. Qed.

Lemma model_names_raises (models : list json) (e : exn) :
  model_names models = Raise e -> plain_exn e.
Proof.
  induction models as [|m rest IH]; simpl; [discriminate|].
  destruct (py_getitem m "name") as [v|e1] eqn:E1.
  - destruct (model_names rest) as [names|e2]; [discriminate|].
    intros H. inversion H; subst. apply IH. reflexivity.
  - intros H. inversion H; subst. eapply py_getitem_raises; eauto.
Qed.

Lemma model_info_raises (model : json) (e : exn) :
  model_info model = Raise e -> plain_exn e.
Proof.
  unfold model_info, ModelInfo_init.
  repeat match goal with
         | |- context [py_getitem ?v ?k] =>
             let E := fresh "E" in
             destruct (py_getitem v k) eqn:E;
             [|intros H; inversion H; subst; eapply py_getitem_raises; eauto]
         end.
  destruct (py_get model "details" JNull) eqn:Edetails;
    [|intros H; inversion H; subst; eapply py_get_raises; eauto].
  repeat match goal with
         | |- context [match ?x with Some _ => _ | None => _ end] => destruct x
         end;
    intros H; inversion H; exact I.
Qed.

Lemma model_infos_raises (models : list json) (e : exn) :
  model_infos models = Raise e -> plain_exn e.
Proof.
  induction models as [|m rest IH]; simpl; [discriminate|].
  destruct (model_info m) as [info|e1] eqn:E1.
  - destruct (model_infos rest) as [infos|e2]; [discriminate|].
    intros H. inversion H; subst. apply IH. reflexivity.
  - intros H. inversion H; subst. eapply model_info_raises; eauto.
Qed.

(** The outcomes of [list_models]; the world is never changed. *)
Lemma list_models_cases (tags : Reply) (w : World) :
  (exists infos, list_models tags w = (Return infos, w)) \/
  (tags = Unreachable /\
   list_models tags w =
   (Raise (HTTPException 503 "Ollama server is not available"), w)) \/
  (exists e,
      tags <> Unreachable /\
      list_models tags w =
      (Raise (HTTPException 500 ("Error fetching models: " ++ exc_str e)), w)).
Proof.
  unfold list_models. unfold_monad.
  destruct tags as [|code text|text]; simpl.
  - right. left. auto.
  - right. right. eexists. split; [discriminate|reflexivity].
  - assert (Hne : Success text <> Unreachable) by discriminate.
    destruct (loads text) as [data|e] eqn:E1; simpl.
    2:{ right. right. exists e. split; [exact Hne|].
        pose proof (loads_raises _ _ E1).
        destruct e; try contradiction; reflexivity. }
    destruct (py_get data "models" (JArr [])) as [models|e] eqn:E2; simpl.
    2:{ right. right. exists e. split; [exact Hne|].
        pose proof (py_get_raises _ _ _ _ E2).
        destruct e; try contradiction; reflexivity. }
    destruct (py_iter models) as [items|e] eqn:E3; simpl.
    2:{ right. right. exists e. split; [exact Hne|].
        pose proof (py_iter_raises _ _ E3).
        destruct e; try contradiction; reflexivity. }
    destruct (model_infos items) as [infos|e] eqn:E4; simpl.
    2:{ right. right. exists e. split; [exact Hne|].
        pose proof (model_infos_raises _ _ E4).
        destruct e; try contradiction; reflexivity. }
    left. eauto.
Qed.

(** The outcomes of [create_new_session]. *)
Lemma create_new_session_cases (tags : Reply) (m : string) (w : World) :
  (tags = Unreachable /\
   create_new_session tags m w =
   (Raise (HTTPException 503 "Ollama server is not available"), w)) \/
  (exists code text,
      tags = ErrorStatus code text /\
      create_new_session tags m w = (Raise (HTTPStatusError code text), w)) \/
  (exists text,
      tags = Success text /\
      ((exists e, plain_exn e /\ create_new_session tags m w = (Raise e, w)) \/
       create_new_session tags m w =
       (Raise (HTTPException 400 ("Model '" ++ m ++ "' not available")), w) \/
       create_new_session tags m w =
       (Return (uuid4 (uuids w), m, clock (ticks w)), snd (create_session m w)))).
Proof.
  unfold create_new_session, create_new_session_body. unfold_monad.
  destruct tags as [|code text|text]; simpl.
  - left. auto.
  - right. left. eauto.
  - right. right. exists text. split; [reflexivity|].
    destruct (loads text) as [data|e] eqn:E1; simpl.
    2:{ left. exists e. pose proof (loads_raises _ _ E1).
        split; [assumption|]. destruct e; try contradiction; reflexivity. }
    destruct (py_get data "models" (JArr [])) as [models|e] eqn:E2; simpl.
    2:{ left. exists e. pose proof (py_get_raises _ _ _ _ E2).
        split; [assumption|]. destruct e; try contradiction; reflexivity. }
    destruct (py_iter models) as [items|e] eqn:E3; simpl.
    2:{ left. exists e. pose proof (py_iter_raises _ _ E3).
        split; [assumption|]. destruct e; try contradiction; reflexivity. }
    destruct (model_names items) as [names|e] eqn:E4; simpl.
    2:{ left. exists e. pose proof (model_names_raises _ _ E4).
        split; [assumption|]. destruct e; try contradiction; reflexivity. }
    destruct (existsb (is_JStr m) names); simpl.
    + right. right.
      rewrite getitem_setitem, String.eqb_refl. reflexivity.
    + right. left. reflexivity.
Qed.

Lemma plain_exn_status (A : Type) (e : exn) :
  plain_exn e -> http_status (@Raise A e) = 500.
Proof. destruct e; simpl; try contradiction; reflexivity. Qed.

(** X11. [create_new_session] stores a session only when it succeeds: a
    call that ends with an exception leaves the world as it was.  For an
    unreachable backend the exception is the 503; an error status of the
    backend is not caught and leaves the handler as the client's
    [HTTPStatusError]; for a success status it is the 400 for a model that
    is not listed, or an exception raised on a body of another shape. *)
Theorem failed_create_new_session_stores_nothing (tags : Reply) (m : string)
    (w w' : World) (e : exn) :
  create_new_session tags m w = (Raise e, w') ->
  w' = w /\
  match tags with
  | Unreachable => e = HTTPException 503 "Ollama server is not available"
  | ErrorStatus code text => e = HTTPStatusError code text
  | Success _ =>
      e = HTTPException 400 ("Model '" ++ m ++ "' not available") \/ plain_exn e
  end.
Proof.
  intros Hrun.
  destruct (create_new_session_cases tags m w)
    as [[-> H]|[(code & text & -> & H)|(text & -> & [(e1 & He1 & H)|[H|H]])]];
    rewrite H in Hrun; inversion Hrun; subst; auto.
Qed.

(** X12. When the backend lists the model, [create_new_session] answers
    with the generated identifier, the model and the creation time, and the
    session stored under that identifier is bound to the model, has an
    empty history and that creation time; [get_session] returns it, and
    every other identifier is bound as before. *)
Theorem create_new_session_binds_listed_model (text m : string) (data models : json)
    (items names : list json) (w : World) :
  json_loads text = Some data ->
  py_get data "models" (JArr []) = Return models ->
  py_iter models = Return items ->
  model_names items = Return names ->
  existsb (is_JStr m) names = true ->
  let sid := uuid4 (uuids w) in
  exists w',
    create_new_session (Success text) m w =
    (Return (sid, m, clock (ticks w)), w') /\
    get_session sid w' =
    (Return (mkSessionDetails sid m (clock (ticks w)) (clock (1 + ticks w)) []),
     w') /\
    (forall sid', sid' <> sid ->
                  dict_getitem sid' (chat_sessions w') =
                  dict_getitem sid' (chat_sessions w)).
Proof.
  intros Hl Hm Hi Hn Hex sid.
  exists (snd (create_session m w)).
  split; [|split].
  - unfold create_new_session, create_new_session_body, loads. unfold_monad.
    cbn [client_get]. rewrite Hl, Hm, Hi, Hn, Hex. simpl.
    rewrite getitem_setitem, String.eqb_refl. reflexivity.
  - rewrite create_session_run. cbn [snd].
    unfold get_session. unfold_monad. cbn [chat_sessions].
    rewrite contains_getitem, getitem_setitem, String.eqb_refl. simpl.
    rewrite getitem_setitem, String.eqb_refl. reflexivity.
  - intros sid' Hne. rewrite create_session_run. cbn [snd chat_sessions].
    rewrite getitem_setitem. fold sid.
    destruct (String.eqb sid sid') eqn:E; [|reflexivity].
    apply String.eqb_eq in E. congruence.
Qed.

Lemma model_info_describes (entry : json) (info : ModelInfo) :
  describes entry info -> model_info entry = Return info.
Proof.
  intros (kvs & -> & Hn & Hm & Hs & Hd & Hdt).
  unfold model_info. cbn [py_getitem py_get]. rewrite Hn, Hm, Hs, Hd.
  destruct info as [n ma sz dg dt]. cbn [name modified_at size digest details] in *.
  destruct (dict_getitem "details" kvs) as [[| | | | |d]|];
    try contradiction; subst dt; reflexivity.
Qed.

Lemma model_infos_describes (entries : list json) (infos : list ModelInfo) :
  Forall2 describes entries infos -> model_infos entries = Return infos.
Proof.
  induction 1 as [|entry info entries infos Hd _ IH]; [reflexivity|].
  cbn [model_infos]. rewrite (model_info_describes _ _ Hd), IH. reflexivity.
Qed.

(** X13. [list_models] reads back what the backend describes: when the
    body of /api/tags is an object whose "models" entry is a list of
    objects that describe [infos] one by one, each with the name,
    modified_at, size and digest of its model and with its details, or
    with null or no details entry when there are none, whatever other keys
    the objects have and in whatever order, the answer is [infos], in the
    same order; when the body has no "models" entry the answer is the
    empty list.  The world is as it was. *)
Theorem list_models_decodes_tag_entries (text : string) (kvs : dict json)
    (infos : list ModelInfo) (w : World) :
  json_loads text = Some (JObj kvs) ->
  (forall entries,
      dict_getitem "models" kvs = Some (JArr entries) ->
      Forall2 describes entries infos ->
      list_models (Success text) w = (Return infos, w)) /\
  (dict_getitem "models" kvs = None ->
   list_models (Success text) w = (Return [], w)).
Proof.
  intros Hl. split.
  - intros entries Hm Hd.
    unfold list_models, loads. unfold_monad. cbn [client_get].
    rewrite Hl. cbn [py_get]. rewrite Hm. cbn [py_iter].
    rewrite (model_infos_describes _ _ Hd). reflexivity.
  - intros Hm. unfold list_models, loads. unfold_monad. cbn [client_get].
    rewrite Hl. cbn [py_get]. rewrite Hm. reflexivity.
Qed.

(** X14. The three handlers that query /api/tags treat a failing backend
    alike.  [health_check] reports the backend as unhealthy exactly when it
    cannot be reached, which is exactly when [list_models] and
    [create_new_session] answer 503; an error status of the backend is
    answered with 500 by all three, never with the backend's own status and
    never as unhealthy.  [list_models] and [health_check] leave the world
    as it is. *)
Theorem tags_handlers_on_backend_failure (tags : Reply) (m : string) (w : World) :
  snd (list_models tags w) = w /\
  snd (health_check tags w) = w /\
  (fst (health_check tags w) = Return ("unhealthy", "disconnected")
   <-> tags = Unreachable) /\
  (http_status (fst (list_models tags w)) = 503 <-> tags = Unreachable) /\
  (http_status (fst (create_new_session tags m w)) = 503 <-> tags = Unreachable) /\
  (forall code text,
      tags = ErrorStatus code text ->
      http_status (fst (health_check tags w)) = 500 /\
      http_status (fst (list_models tags w)) = 500 /\
      http_status (fst (create_new_session tags m w)) = 500).
Proof.
  split; [|split; [|split; [|split; [|split]]]].
  - destruct (list_models_cases tags w)
      as [[infos H]|[[_ H]|(e & _ & H)]]; rewrite H; reflexivity.
  - destruct tags; reflexivity.
  - destruct tags; simpl; split; intros H; try discriminate; reflexivity.
  - split.
    + intros Hs.
      destruct (list_models_cases tags w)
        as [[infos H]|[[Ht H]|(e & _ & H)]]; rewrite H in Hs; simpl in Hs;
        [discriminate|exact Ht|discriminate].
    + intros ->. reflexivity.
  - split.
    + intros Hs.
      destruct (create_new_session_cases tags m w)
        as [[Ht H]|[(code & text & -> & H)|(text & -> & [(e1 & He1 & H)|[H|H]])]];
        rewrite H in Hs; cbn [fst] in Hs; try discriminate; try exact Ht.
      rewrite (plain_exn_status _ _ He1) in Hs. discriminate.
    + intros ->. reflexivity.
  - intros code text ->. repeat split; reflexivity.
Qed.

(** ** The order of the times kept in a session *)

Lemma sorted_snoc (l : list Z) (b : Z) :
  StronglySorted Z.le (l ++ [b]) <->
  StronglySorted Z.le l /\ Forall (fun x => x <= b) l.
Proof.
  induction l as [|x l IH]; simpl.
  - split; intros _; [split; constructor|repeat constructor].
  - split.
    + intros H. inversion H as [|? ? Hs Hall]; subst.
      apply IH in Hs. destruct Hs as [Hs Hb].
      rewrite Forall_app in Hall. destruct Hall as [Hall Hxb].
      inversion Hxb; subst.
      split; constructor; auto.
    + intros [H Hb]. inversion H as [|? ? Hs Hall]; subst.
      inversion Hb; subst.
      constructor; [apply IH; auto|].
      rewrite Forall_app. split; [exact Hall|]. constructor; auto.
Qed.

Lemma chronological_later (b b' : Z) (s : Session) :
  chronological b s -> b <= b' -> chronological b' s.
Proof.
  intros [Hs Hlu] Hle. split; [|lia].
  rewrite app_comm_cons in *. apply sorted_snoc in Hs. apply sorted_snoc.
  destruct Hs as [Hs Hall]. split; [exact Hs|].
  eapply Forall_impl; [|exact Hall]. simpl. intros x Hx. lia.
Qed.

Lemma chronological_append (b t b' : Z) (r : string) (c : json) (s : Session) :
  chronological b s -> b <= t -> t <= b' ->
  chronological b' (append_message (mkMessage r c t) s).
Proof.
  intros [Hs Hlu] Hbt Htb. split; [|simpl; lia].
  simpl. rewrite map_app. simpl.
  rewrite app_comm_cons in *. apply sorted_snoc in Hs. destruct Hs as [Hs Hall].
  apply sorted_snoc. split.
  - rewrite app_comm_cons. apply sorted_snoc. split; [exact Hs|].
    eapply Forall_impl; [|exact Hall]. simpl. intros x Hx. lia.
  - rewrite app_comm_cons, Forall_app. split.
    + eapply Forall_impl; [|exact Hall]. simpl. intros x Hx. lia.
    + constructor; [exact Htb|constructor].
Qed.

Lemma chronological_touch (b t b' : Z) (s : Session) :
  chronological b s -> b <= t -> t <= b' ->
  chronological b' (set_last_updated t s).
Proof.
  intros H Hbt Htb.
  destruct (chronological_later _ b' _ H ltac:(lia)) as [Hs _].
  destruct H as [_ Hlu]. split; [exact Hs|simpl; lia].
Qed.

Lemma Forall_dict_update (P Q : string * Session -> Prop) (k : string)
    (f : Session -> Session) (d : dict Session) :
  (forall k' s, P (k', s) -> Q (k', s)) ->
  (forall k' s, P (k', s) -> Q (k', f s)) ->
  Forall P d -> Forall Q (dict_update k f d).
Proof.
  intros Hkeep Hf. induction d as [|[k0 s0] d IH]; simpl; intros H;
    [constructor|].
  inversion H; subst.
  destruct (String.eqb k k0).
  - constructor; [apply Hf; assumption|].
    eapply Forall_impl; [|eassumption]. intros [k' s]. apply Hkeep.
  - constructor; [apply Hkeep; assumption|apply IH; assumption].
Qed.

Lemma Forall_dict_setitem (Q : string * Session -> Prop) (k : string)
    (v : Session) (d : dict Session) :
  (forall k', Q (k', v)) -> Forall Q d -> Forall Q (dict_setitem k v d).
Proof.
  intros Hv. induction d as [|[k0 s0] d IH]; simpl; intros H.
  - constructor; [apply Hv|constructor].
  - inversion H; subst. destruct (String.eqb k k0); constructor; auto.
Qed.

Lemma Forall_dict_delitem (Q : string * Session -> Prop) (k : string)
    (d : dict Session) :
  Forall Q d -> Forall Q (dict_delitem k d).
Proof.
  induction d as [|[k0 s0] d IH]; simpl; intros H; [constructor|].
  inversion H; subst. destruct (String.eqb k k0); [assumption|].
  constructor; auto.
Qed.

Section Monotone.

Hypothesis clock_monotone : forall i j, (i <= j)%nat -> clock i <= clock j.

(** Time passes and the sessions are left alone. *)
Lemma timely_later (w w' : World) :
  chat_sessions w' = chat_sessions w -> (ticks w <= ticks w')%nat ->
  timely w -> timely w'.
Proof.
  intros Hs Ht H. unfold timely in *. rewrite Hs.
  eapply Forall_impl; [|exact H]. intros [k s] Hc.
  eapply chronological_later; [exact Hc|]. apply clock_monotone. exact Ht.
Qed.

(** A message stamped with the current reading of the clock is appended. *)
Lemma timely_append (w w' : World) (sid r : string) (c : json) :
  chat_sessions w' =
    dict_update sid (append_message (mkMessage r c (clock (ticks w))))
      (chat_sessions w) ->
  (ticks w <= ticks w')%nat ->
  timely w -> timely w'.
Proof.
  intros Hs Ht H. unfold timely in *. rewrite Hs.
  eapply Forall_dict_update; [| |exact H]; simpl; intros k s Hc.
  - eapply chronological_later; [exact Hc|]. apply clock_monotone. exact Ht.
  - eapply chronological_append; [exact Hc|lia|]. apply clock_monotone. exact Ht.
Qed.

(** [last_updated] is set to the current reading of the clock. *)
Lemma timely_touch (w w' : World) (sid : string) :
  chat_sessions w' =
    dict_update sid (set_last_updated (clock (ticks w))) (chat_sessions w) ->
  (ticks w <= ticks w')%nat ->
  timely w -> timely w'.
Proof.
  intros Hs Ht H. unfold timely in *. rewrite Hs.
  eapply Forall_dict_update; [| |exact H]; simpl; intros k s Hc.
  - eapply chronological_later; [exact Hc|]. apply clock_monotone. exact Ht.
  - eapply chronological_touch; [exact Hc|lia|]. apply clock_monotone. exact Ht.
Qed.

Lemma timely_create (m : string) (w : World) :
  timely w -> timely (snd (create_session m w)).
Proof.
  intros H. rewrite create_session_run. unfold timely in *. cbn [snd chat_sessions ticks].
  assert (H1 : clock (ticks w) <= clock (S (ticks w))) by (apply clock_monotone; lia).
  assert (H2 : clock (S (ticks w)) <= clock (S (S (ticks w))))
    by (apply clock_monotone; lia).
  apply Forall_dict_setitem.
  - intros k'. split; simpl; [|lia].
    repeat constructor. lia.
  - eapply Forall_impl; [|exact H]. intros [k s] Hc.
    eapply chronological_later; [exact Hc|]. simpl. lia.
Qed.

Lemma timely_resolve (request : ChatRequest) (w w0 : World) (sid : string) :
  session_id_or_create request w = (Return sid, w0) -> timely w -> timely w0.
Proof.
  unfold session_id_or_create.
  destruct (opt_truthy (req_session_id request)).
  - intros H. inversion H; subst. auto.
  - intros H Hw. apply (timely_create (req_model request)) in Hw.
    rewrite H in Hw. exact Hw.
Qed.

(** The user message, the assistant message and the new [last_updated],
    stamped with three readings of the clock in a row. *)
Lemma timely_full_turn (w0 w' : World) (sid text : string) (c : json) :
  chat_sessions w' =
    dict_update sid (set_last_updated (clock (S (S (ticks w0)))))
      (dict_update sid
         (append_message (mkMessage "assistant" c (clock (S (ticks w0)))))
         (dict_update sid
            (append_message (mkMessage "user" (JStr text) (clock (ticks w0))))
            (chat_sessions w0))) ->
  (3 + ticks w0 <= ticks w')%nat ->
  timely w0 -> timely w'.
Proof.
  intros Hs Ht H.
  set (d1 := dict_update sid
               (append_message (mkMessage "user" (JStr text) (clock (ticks w0))))
               (chat_sessions w0)) in *.
  set (d2 := dict_update sid
               (append_message (mkMessage "assistant" c (clock (S (ticks w0)))))
               d1) in *.
  assert (H1 : timely (mkWorld d1 (S (ticks w0)) (uuids w0) (outbox w0))).
  { eapply timely_append; [reflexivity|simpl; lia|exact H]. }
  assert (H2 : timely (mkWorld d2 (S (S (ticks w0))) (uuids w0) (outbox w0))).
  { eapply (timely_append (mkWorld d1 (S (ticks w0)) (uuids w0) (outbox w0)));
      [reflexivity|simpl; lia|exact H1]. }
  eapply (timely_touch (mkWorld d2 (S (S (ticks w0))) (uuids w0) (outbox w0)));
    [exact Hs|simpl; lia|exact H2].
Qed.

Lemma chat_with_model_timely (ollama : Payload -> Reply) (request : ChatRequest)
    (w : World) :
  timely w -> timely (snd (chat_with_model ollama request w)).
Proof.
  intros H.
  destruct (session_id_or_create_run request w) as (sid & w0 & Hres).
  pose proof (timely_resolve _ _ _ _ Hres H) as H0.
  destruct (dict_getitem sid (chat_sessions w0)) as [s0|] eqn:Hget.
  - destruct (String.eqb (model s0) (req_model request)) eqn:Hm.
    + apply String.eqb_eq in Hm.
      rewrite (chat_with_model_resolved ollama _ _ _ _ _ Hres Hget Hm).
      assert (Huser : forall box,
                 timely
                   (mkWorld
                      (dict_update sid
                         (append_message
                            (mkMessage "user" (JStr (req_message request))
                               (clock (ticks w0))))
                         (chat_sessions w0))
                      (S (ticks w0)) (uuids w0) box)).
      { intros box. eapply (timely_append w0); [reflexivity|simpl; lia|exact H0]. }
      destruct (ollama _) as [|code text|text]; cbn [snd]; try apply Huser.
      destruct (message_content text) as [c|e].
      * assert (Hfull : forall box,
                   timely
                     (mkWorld
                        (dict_update sid
                           (set_last_updated (clock (S (S (ticks w0)))))
                           (dict_update sid
                              (append_message
                                 (mkMessage "assistant" c (clock (S (ticks w0)))))
                              (dict_update sid
                                 (append_message
                                    (mkMessage "user" (JStr (req_message request))
                                       (clock (ticks w0))))
                                 (chat_sessions w0))))
                        (S (S (S (S (ticks w0))))) (uuids w0) box)).
        { intros box. eapply (timely_full_turn w0); [reflexivity|simpl; lia|exact H0]. }
        cbv zeta. destruct (ChatResponse_init _ _ _ _) as [r|e].
        -- apply Hfull.
        -- match goal with
           | |- context [chat_with_model_except ?e ?w] =>
               destruct (chat_with_model_except_run e w) as [e' ->]
           end. apply Hfull.
      * match goal with
        | |- context [chat_with_model_except ?e ?w] =>
            destruct (chat_with_model_except_run e w) as [e' ->]
        end. apply Huser.
    + apply String.eqb_neq in Hm.
      rewrite (chat_with_model_mismatch ollama _ _ _ _ _ Hres Hget Hm). exact H0.
  - rewrite (chat_with_model_unknown ollama _ _ _ _ Hres Hget). exact H0.
Qed.

Lemma stream_turn_timely (ollama : Payload -> StreamReply) (request : ChatRequest)
    (w : World) :
  timely w -> timely (snd (stream_turn ollama request w)).
Proof.
  intros H.
  destruct (session_id_or_create_run request w) as (sid & w0 & Hres).
  pose proof (timely_resolve _ _ _ _ Hres H) as H0.
  destruct (dict_getitem sid (chat_sessions w0)) as [s0|] eqn:Hget.
  - unfold stream_turn. rewrite (chat_stream_resolved _ _ _ _ _ Hres Hget).
    assert (Huser : forall box,
               timely
                 (mkWorld
                    (dict_update sid
                       (append_message
                          (mkMessage "user" (JStr (req_message request))
                             (clock (ticks w0))))
                       (chat_sessions w0))
                    (S (ticks w0)) (uuids w0) box)).
    { intros box. eapply (timely_append w0); [reflexivity|simpl; lia|exact H0]. }
    unfold generate. cbn [gen_model gen_messages gen_session_id chat_sessions ticks
                          uuids outbox].
    destruct (ollama _) as [|code text|ls dropped]; cbn [snd]; try apply Huser.
    match goal with
    | |- context [generate_loop ?a ?b ?c ?d ?e] =>
        destruct (generate_loop a b c d e) as [[chunks ex] w2] eqn:Hrun
    end.
    destruct (generate_loop_outcome _ _ _ _ _ _ _ _ Hrun)
      as [(cs & _ & _ & _ & -> & _)|[_ ->]]; cbn [snd]; [|apply Huser].
    rewrite commit_response_run. cbn [snd chat_sessions ticks].
    eapply (timely_full_turn w0); [reflexivity|simpl; lia|exact H0].
  - unfold stream_turn. rewrite (chat_stream_unknown _ _ _ _ Hres Hget). exact H0.
Qed.

Lemma run_op_timely (o : op) (w : World) : timely w -> timely (run_op o w).
Proof.
  intros H.
  destruct o as [ollama request|ollama request| |sid0|sid0|tags m]; cbn [run_op].
  - apply chat_with_model_timely. exact H.
  - apply stream_turn_timely. exact H.
  - exact H.
  - rewrite get_session_world. exact H.
  - rewrite delete_session_world.
    destruct (dict_contains sid0 (chat_sessions w)); [|exact H].
    unfold timely in *. cbn [chat_sessions ticks].
    apply Forall_dict_delitem. exact H.
  - destruct (create_new_session_world tags m w) as [->| ->];
      [exact H|apply timely_create; exact H].
Qed.

Lemma run_timely (ops : list op) : forall w, timely w -> timely (run ops w).
Proof.
  induction ops as [|o ops IH]; intros w H; [exact H|].
  apply IH. apply run_op_timely. exact H.
Qed.

(** X15. With a clock that never goes back, in every world reached from
    start-up by any sequence of operations each stored session has its
    times in order: the creation time is at most the timestamp of the first
    message, the timestamps do not decrease along the history, and
    [last_updated] is at least the creation time; none of these times is
    later than the next reading of the clock. *)
Theorem histories_are_chronological (ops : list op) (sid : string) (s : Session) :
  dict_getitem sid (chat_sessions (run ops initial_world)) = Some s ->
  StronglySorted Z.le (created_at s :: map timestamp (messages s)) /\
  created_at s <= last_updated s /\
  last_updated s <= clock (ticks (run ops initial_world)) /\
  Forall (fun m => timestamp m <= clock (ticks (run ops initial_world)))
    (messages s).
Proof.
  intros Hget.
  assert (Hinit : timely initial_world) by constructor.
  pose proof (run_timely ops _ Hinit) as Hrun.
  unfold timely in Hrun. rewrite Forall_forall in Hrun.
  destruct (Hrun _ (getitem_in _ _ _ _ Hget)) as [Hs Hlu]. cbn [snd] in *.
  rewrite app_comm_cons in Hs. apply sorted_snoc in Hs. destruct Hs as [Hs Hall].
  split; [exact Hs|]. split; [lia|]. split; [lia|].
  inversion Hall as [|? ? _ Hrest]; subst.
  rewrite Forall_map in Hrest. exact Hrest.
Qed.

(** X16. With a clock that never goes back, after a blocking turn that
    stored the assistant message, in a world reached from start-up, no
    session is listed with a later [last_updated] than the session of that
    turn: the listing, which is by [last_updated] descending, has no entry
    more recent than it. *)
Theorem completed_turn_is_most_recent (ops : list op)
    (ollama : Payload -> Reply) (request : ChatRequest) (w0 : World)
    (sid : string) (s0 : Session) (text : string) (c : json) :
  let w := run ops initial_world in
  session_id_or_create request w = (Return sid, w0) ->
  dict_getitem sid (chat_sessions w0) = Some s0 ->
  model s0 = req_model request ->
  let user := mkMessage "user" (JStr (req_message request)) (clock (ticks w0)) in
  ollama (mkPayload (req_model request)
            (with_system_prompt (req_system_prompt request)
               (map (fun msg => (role msg, content msg)) (messages s0 ++ [user])))
            false) = Success text ->
  message_content text = Return c ->
  let w' := snd (chat_with_model ollama request w) in
  (exists s', dict_getitem sid (chat_sessions w') = Some s' /\
              last_updated s' = clock (2 + ticks w0)) /\
  forall out e,
    fst (list_sessions w') = Return out -> In e out ->
    info_last_updated e <= clock (2 + ticks w0).
Proof.
  intros w Hres Hget Hmodel user Hreply Hcontent w'.
  assert (H0 : timely w0).
  { eapply timely_resolve; [exact Hres|]. apply run_timely. constructor. }
  assert (Hstore :
            chat_sessions w' =
            dict_update sid (set_last_updated (clock (S (S (ticks w0)))))
              (dict_update sid
                 (append_message (mkMessage "assistant" c (clock (S (ticks w0)))))
                 (dict_update sid (append_message user) (chat_sessions w0)))).
  { unfold w'.
    rewrite (chat_with_model_resolved ollama _ _ _ _ _ Hres Hget Hmodel).
    fold user. rewrite Hreply, Hcontent. cbv zeta.
    destruct (ChatResponse_init _ _ _ _) as [r|e]; [reflexivity|].
    match goal with
    | |- context [chat_with_model_except ?e ?w] =>
        destruct (chat_with_model_except_run e w) as [e' ->]
    end. reflexivity. }
  rewrite 2 update_update in Hstore.
  split.
  - rewrite Hstore, getitem_update, String.eqb_refl, Hget. simpl.
    eexists. split; reflexivity.
  - intros out e Hout He. simpl in Hout. inversion Hout; subst out.
    apply (Permutation_in _ (sorted_desc_perm _)) in He.
    apply in_map_iff in He. destruct He as ([k s] & <- & Hin).
    cbn [session_info info_last_updated snd].
    assert (Hall : Forall (fun item => last_updated (snd item)
                                       <= clock (2 + ticks w0))
                     (chat_sessions w')).
    { rewrite Hstore.
      eapply Forall_dict_update; [| |exact H0]; simpl; intros k' s1 [_ Hlu].
      - assert (clock (ticks w0) <= clock (S (S (ticks w0))))
          by (apply clock_monotone; lia). lia.
      - lia. }
    rewrite Forall_forall in Hall. apply (Hall _ Hin).
Qed.

End Monotone.

End Relay.

(** ** The relay in a concrete environment *)

Lemma digits_length (n : nat) : String.length (Scenario.digits n) = n.
Proof. induction n; simpl; congruence. Qed.

Lemma scenario_uuid4_injective (i j : nat) :
  Scenario.uuid4 i = Scenario.uuid4 j -> i = j.
Proof.
  unfold Scenario.uuid4. intros H.
  assert (Hd : Scenario.digits (S i) = Scenario.digits (S j)).
  { simpl in H. inversion H. simpl. congruence. }
  apply (f_equal String.length) in Hd. rewrite !digits_length in Hd.
  congruence.
Qed.

(** C1. The session "s1" is bound to model "m1" and a streaming request
    names it with model "m2": [chat_stream] does not compare the models, so
    the turn runs to its end, the user message and the assistant message
    are stored and [last_updated] is set.  The blocking handler does
    compare them and leaves the session as it was, but its 400 is caught by
    its own [except Exception] clause and leaves as a 500. *)
Theorem stream_turn_accepts_other_model :
  let request := mkChatRequest "hi" "m2" (Some "s1") None in
  stream_turn Scenario.clock Scenario.uuid4 Scenario.json_loads Scenario.exc_str
    Scenario.streams_hello request Scenario.one_session =
  (Return ([ContentChunk "hel" "s1"; ContentChunk "lo" "s1"; DoneChunk "s1"],
           None),
   mkWorld
     [("s1", mkSession "m1"
               [mkMessage "user" (JStr "hi") 100;
                mkMessage "assistant" (JStr "hello") 101]
               10 102)]
     3 0 [mkPayload "m2" [("user", JStr "hi")] true]) /\
  chat_with_model Scenario.clock Scenario.uuid4 Scenario.json_loads
    Scenario.exc_str Scenario.coerce_str Scenario.says_hello request
    Scenario.one_session =
  (Raise (HTTPException 500 "Chat error: 400: Model mismatch with session"),
   Scenario.one_session).
Proof. split; vm_compute; reflexivity. Qed.

(** C3. A blocking chat request naming a session that does not exist is
    answered with status 500, not 404: the 404 raised inside the [try]
    block is caught by the [except Exception] clause of the same handler.
    Reading or deleting the same session is answered with 404. *)
Theorem chat_unknown_session_answers_500 :
  let request := mkChatRequest "hi" "m1" (Some "ghost") None in
  chat_with_model Scenario.clock Scenario.uuid4 Scenario.json_loads
    Scenario.exc_str Scenario.coerce_str Scenario.says_hello request
    Scenario.empty_world =
  (Raise (HTTPException 500 "Chat error: 404: Session not found"),
   Scenario.empty_world) /\
  http_status
    (fst (chat_with_model Scenario.clock Scenario.uuid4 Scenario.json_loads
            Scenario.exc_str Scenario.coerce_str Scenario.says_hello request
            Scenario.empty_world)) = 500 /\
  http_status (fst (get_session "ghost" Scenario.empty_world)) = 404 /\
  http_status (fst (delete_session "ghost" Scenario.empty_world)) = 404.
Proof. repeat split; vm_compute; reflexivity. Qed.

(** ** The theorems at concrete inputs *)

(** The stream delivers two fragments and an undecodable line, then the
    connection drops: the history of "s1" ends at the user message. *)
Lemma stream_without_done_commits_nothing_witness :
  let after_user :=
    mkWorld [("s1", mkSession "m1" [mkMessage "user" (JStr "hi") 100] 10 10)]
      1 0 [] in
  exists r w2,
    stream_turn Scenario.clock Scenario.uuid4 Scenario.json_loads
      Scenario.exc_str Scenario.stream_breaks
      (mkChatRequest "hi" "m1" (Some "s1") None) Scenario.one_session =
    (Return r, w2) /\
    chat_sessions w2 = chat_sessions after_user /\
    forall sid s,
      dict_getitem sid (chat_sessions after_user) = Some s ->
      exists s',
        dict_getitem sid (chat_sessions w2) = Some s' /\
        List.length (messages s') = List.length (messages s) /\
        last_updated s' = last_updated s.
Proof.
  intro after_user.
  exact (stream_without_done_commits_nothing Scenario.clock Scenario.uuid4
           Scenario.json_loads Scenario.exc_str Scenario.stream_breaks
           (mkChatRequest "hi" "m1" (Some "s1") None) Scenario.one_session
           after_user
           (mkGenerator "s1" "m1" [("user", JStr "hi")])
           eq_refl eq_refl).
Defined.



(** With a system prompt the body posted starts with the system entry. *)
Lemma projection_sent_to_backend_witness :
  outbox
    (snd (chat_with_model Scenario.clock Scenario.uuid4 Scenario.json_loads
            Scenario.exc_str Scenario.coerce_str Scenario.says_hello
            (mkChatRequest "hi" "m1" (Some "s1") (Some "be brief"))
            Scenario.one_session)) =
  [mkPayload "m1" [("system", JStr "be brief"); ("user", JStr "hi")] false].
Proof.
  exact (proj1
           (proj1 (proj2
                     (projection_sent_to_backend Scenario.clock Scenario.uuid4
                        Scenario.json_loads Scenario.exc_str Scenario.coerce_str
                        (mkChatRequest "hi" "m1" (Some "s1") (Some "be brief"))
                        Scenario.one_session Scenario.one_session "s1"
                        (mkSession "m1" [] 10 10) eq_refl eq_refl))
              Scenario.says_hello eq_refl)).
Defined.

(** The streaming handler stores the user message and keeps the other
    fields of "s1". *)
Lemma turn_frame_witness :
  exists g w1,
    chat_stream Scenario.clock Scenario.uuid4 Scenario.exc_str
      (mkChatRequest "hi" "m1" (Some "s1") None) Scenario.one_session =
    (Return g, w1) /\
    dict_getitem "s1" (chat_sessions w1) =
    Some (mkSession "m1" [mkMessage "user" (JStr "hi") 100] 10 10).
Proof.
  exact (proj1
           (turn_frame Scenario.clock Scenario.uuid4 Scenario.json_loads
              Scenario.exc_str Scenario.coerce_str
              (mkChatRequest "hi" "m1" (Some "s1") None)
              Scenario.one_session Scenario.one_session "s1"
              (mkSession "m1" [] 10 10) eq_refl eq_refl)).
Defined.

(** "s2" was updated after "s1" and is listed first. *)
Lemma list_sessions_order_witness :
  exists out,
    list_sessions Scenario.two_sessions = (Return out, Scenario.two_sessions) /\
    before_in (mkSessionInfo "s2" "m1" 20 30 0) (mkSessionInfo "s1" "m1" 10 10 0)
      out.
Proof.
  destruct (list_sessions_order Scenario.two_sessions)
    as (out & Hrun & _ & _ & Horder & _).
  exists out. split; [exact Hrun|].
  apply (Horder "s2" (mkSession "m1" [] 20 30) "s1" (mkSession "m1" [] 10 10)).
  - right. left. reflexivity.
  - left. reflexivity.
  - reflexivity.
Defined.

(** Scenario B of the specification. *)
Lemma first_turn_creates_session_witness :
  exists w',
    chat_with_model Scenario.clock Scenario.uuid4 Scenario.json_loads
      Scenario.exc_str Scenario.coerce_str Scenario.says_hello
      (mkChatRequest "hi" "m1" None None) Scenario.empty_world =
    (Return (mkChatResponse "hello" "id-1" "m1" 105), w') /\
    dict_getitem "id-1" (chat_sessions w') =
    Some (mkSession "m1"
            [mkMessage "user" (JStr "hi") 102;
             mkMessage "assistant" (JStr "hello") 103]
            100 104).
Proof.
  exact (first_turn_creates_session Scenario.clock Scenario.uuid4
           Scenario.json_loads Scenario.exc_str Scenario.coerce_str
           Scenario.says_hello (mkChatRequest "hi" "m1" None None)
           Scenario.empty_world "hello"
           (JObj [("message", JObj [("role", JStr "assistant");
                                    ("content", JStr "hello")])])
           (JObj [("role", JStr "assistant"); ("content", JStr "hello")])
           "hello" eq_refl eq_refl eq_refl eq_refl eq_refl).
Defined.

(** A blocking turn creates "id-1"; a streaming turn continues it. *)
Lemma session_invariants_witness :
  let first := OpChat Scenario.says_hello (mkChatRequest "hi" "m1" None None) in
  let second :=
    OpStream Scenario.streams_hello
      (mkChatRequest "more" "m1" (Some "id-1") None) in
  let s :=
    mkSession "m1"
      [mkMessage "user" (JStr "hi") 102;
       mkMessage "assistant" (JStr "hello") 103]
      100 104 in
  assistant_follows_user (messages s) /\
  match dict_getitem "id-1"
          (chat_sessions
             (run Scenario.clock Scenario.uuid4 Scenario.json_loads
                Scenario.exc_str Scenario.coerce_str [second]
                (run Scenario.clock Scenario.uuid4 Scenario.json_loads
                   Scenario.exc_str Scenario.coerce_str [first]
                   initial_world))) with
  | Some s' =>
      model s' = model s /\
      (exists tail, messages s' = messages s ++ tail) /\
      (List.length (messages s) <= List.length (messages s'))%nat
  | None => In (OpDelete "id-1") [second]
  end.
Proof.
  intros first second s.
  exact (session_invariants Scenario.clock Scenario.uuid4 Scenario.json_loads
           Scenario.exc_str Scenario.coerce_str scenario_uuid4_injective
           [first] [second] "id-1" s eq_refl).
Defined.

(** ** The further properties at concrete inputs *)

Lemma scenario_clock_monotone (i j : nat) :
  (i <= j)%nat -> Scenario.clock i <= Scenario.clock j.
Proof. unfold Scenario.clock. lia. Qed.

Lemma two_sessions_keys :
  NoDup (dict_keys (chat_sessions Scenario.two_sessions)).
Proof.
  simpl. constructor.
  - intros [H|[]]. discriminate.
  - constructor; [intros []|constructor].
Qed.

(** The backend is down: 503, and "s1" keeps the user message. *)
Lemma failed_backend_call_keeps_user_message_witness :
  let request := mkChatRequest "hi" "m1" (Some "s1") None in
  let run :=
    chat_with_model Scenario.clock Scenario.uuid4 Scenario.json_loads
      Scenario.exc_str Scenario.coerce_str Scenario.is_down request
      Scenario.one_session in
  http_status (fst run) = 503 /\
  dict_getitem "s1" (chat_sessions (snd run)) =
    Some (mkSession "m1" [mkMessage "user" (JStr "hi") 100] 10 10) /\
  outbox (snd run) = [mkPayload "m1" [("user", JStr "hi")] false].
Proof.
  exact (failed_backend_call_keeps_user_message Scenario.clock Scenario.uuid4
           Scenario.json_loads Scenario.exc_str Scenario.coerce_str
           Scenario.is_down (mkChatRequest "hi" "m1" (Some "s1") None)
           Scenario.one_session Scenario.one_session "s1"
           (mkSession "m1" [] 10 10) eq_refl eq_refl eq_refl
           (or_introl eq_refl)).
Defined.

(** A streaming request for a session that is not stored. *)
Lemma rejected_request_changes_nothing_witness :
  let request := mkChatRequest "hi" "m1" (Some "ghost") None in
  snd (chat_stream Scenario.clock Scenario.uuid4 Scenario.exc_str request
         Scenario.one_session) = Scenario.one_session /\
  http_status
    (fst (chat_stream Scenario.clock Scenario.uuid4 Scenario.exc_str request
            Scenario.one_session)) = 500.
Proof.
  intro request.
  assert (Hne : "ghost" <> "") by discriminate.
  exact (proj2
           (proj1 (rejected_request_changes_nothing Scenario.clock Scenario.uuid4
                     Scenario.json_loads Scenario.exc_str Scenario.coerce_str
                     request Scenario.one_session "ghost" eq_refl Hne)
              eq_refl)).
Defined.

(** A turn on "s1" leaves "s2" as it is. *)
Lemma turn_leaves_other_sessions_witness :
  dict_getitem "s2"
    (chat_sessions
       (snd (chat_with_model Scenario.clock Scenario.uuid4 Scenario.json_loads
               Scenario.exc_str Scenario.coerce_str Scenario.says_hello
               (mkChatRequest "hi" "m1" (Some "s1") None)
               Scenario.two_sessions))) =
  Some (mkSession "m1" [] 20 30).
Proof.
  assert (Hne : "s2" <> "s1") by discriminate.
  exact (proj1
           (turn_leaves_other_sessions Scenario.clock Scenario.uuid4
              Scenario.json_loads Scenario.exc_str Scenario.coerce_str
              (mkChatRequest "hi" "m1" (Some "s1") None)
              Scenario.two_sessions Scenario.two_sessions "s1" eq_refl
              "s2" Hne)
           Scenario.says_hello).
Defined.

(** The backend's content is null: 500, and null is in the history. *)
Lemma unaccepted_content_is_stored_before_the_500_witness :
  let run :=
    chat_with_model Scenario.clock Scenario.uuid4 Scenario.json_loads_more
      Scenario.exc_str Scenario.coerce_str Scenario.says_null
      (mkChatRequest "hi" "m1" (Some "s1") None) Scenario.one_session in
  fst run = Raise (HTTPException 500 "Chat error: ") /\
  dict_getitem "s1" (chat_sessions (snd run)) =
    Some (mkSession "m1"
            [mkMessage "user" (JStr "hi") 100;
             mkMessage "assistant" JNull 101]
            10 102).
Proof.
  assert (Hnostr : forall s, JNull <> JStr s) by (intros s; discriminate).
  exact (unaccepted_content_is_stored_before_the_500 Scenario.clock
           Scenario.uuid4 Scenario.json_loads_more Scenario.exc_str
           Scenario.coerce_str Scenario.says_null
           (mkChatRequest "hi" "m1" (Some "s1") None)
           Scenario.one_session Scenario.one_session "s1"
           (mkSession "m1" [] 10 10) "null reply" JNull
           eq_refl eq_refl eq_refl eq_refl eq_refl Hnostr eq_refl).
Defined.

(** The fragments "hel" and "lo" against the blocking reply "hello". *)
Lemma completed_stream_stores_what_blocking_stores_witness :
  chat_sessions
    (snd (chat_with_model Scenario.clock Scenario.uuid4 Scenario.json_loads
            Scenario.exc_str Scenario.coerce_str Scenario.says_hello
            (mkChatRequest "hi" "m1" (Some "s1") None) Scenario.one_session)) =
  [("s1", mkSession "m1"
            [mkMessage "user" (JStr "hi") 100;
             mkMessage "assistant" (JStr "hello") 101]
            10 102)].
Proof.
  exact (completed_stream_stores_what_blocking_stores Scenario.clock
           Scenario.uuid4 Scenario.json_loads Scenario.exc_str
           Scenario.coerce_str Scenario.says_hello Scenario.streams_hello
           (mkChatRequest "hi" "m1" (Some "s1") None)
           Scenario.one_session Scenario.one_session "s1"
           (mkSession "m1" [] 10 10) "hello"
           [ContentChunk "hel" "s1"; ContentChunk "lo" "s1"; DoneChunk "s1"]
           (mkWorld
              [("s1", mkSession "m1"
                        [mkMessage "user" (JStr "hi") 100;
                         mkMessage "assistant" (JStr "hello") 101]
                        10 102)]
              3 0 [mkPayload "m1" [("user", JStr "hi")] true])
           eq_refl eq_refl eq_refl eq_refl eq_refl eq_refl
           (or_intror (or_intror (or_introl eq_refl)))).
Defined.

(** The backend cannot be reached for a streaming turn on "s1". *)
Lemma stream_backend_failure_comes_after_the_answer_witness :
  exists g w1 e w',
    chat_stream Scenario.clock Scenario.uuid4 Scenario.exc_str
      (mkChatRequest "hi" "m1" (Some "s1") None) Scenario.one_session =
    (Return g, w1) /\
    generate Scenario.clock Scenario.json_loads Scenario.cannot_stream g w1 =
    (([], Some e), w') /\
    (Scenario.cannot_stream (mkPayload "m1" [("user", JStr "hi")] true) =
     StreamUnreachable /\ e = RequestError \/
     exists code text,
       Scenario.cannot_stream (mkPayload "m1" [("user", JStr "hi")] true) =
       StreamErrorStatus code text /\ e = HTTPStatusError code text) /\
    dict_getitem "s1" (chat_sessions w') =
    Some (mkSession "m1" [mkMessage "user" (JStr "hi") 100] 10 10).
Proof.
  exact (stream_backend_failure_comes_after_the_answer Scenario.clock
           Scenario.uuid4 Scenario.json_loads Scenario.exc_str
           Scenario.cannot_stream (mkChatRequest "hi" "m1" (Some "s1") None)
           Scenario.one_session Scenario.one_session "s1"
           (mkSession "m1" [] 10 10) eq_refl eq_refl (or_introl eq_refl)).
Defined.

(** Two blocking turns on "s1": the second body carries the first reply. *)
Lemma next_turn_posts_the_reply_witness :
  outbox
    (snd (chat_with_model Scenario.clock Scenario.uuid4 Scenario.json_loads
            Scenario.exc_str Scenario.coerce_str Scenario.says_hello
            (mkChatRequest "more" "m1" (Some "s1") None)
            (snd (chat_with_model Scenario.clock Scenario.uuid4
                    Scenario.json_loads Scenario.exc_str Scenario.coerce_str
                    Scenario.says_hello
                    (mkChatRequest "hi" "m1" (Some "s1") (Some "be brief"))
                    Scenario.one_session)))) =
  [mkPayload "m1" [("system", JStr "be brief"); ("user", JStr "hi")] false;
   mkPayload "m1"
     [("user", JStr "hi"); ("assistant", JStr "hello"); ("user", JStr "more")]
     false].
Proof.
  assert (Hne : "s1" <> "") by discriminate.
  exact (next_turn_posts_the_reply Scenario.clock Scenario.uuid4
           Scenario.json_loads Scenario.exc_str Scenario.coerce_str
           Scenario.says_hello Scenario.says_hello
           (mkChatRequest "hi" "m1" (Some "s1") (Some "be brief"))
           (mkChatRequest "more" "m1" (Some "s1") None)
           Scenario.one_session Scenario.one_session "s1"
           (mkSession "m1" [] 10 10) "hello" (JStr "hello")
           eq_refl eq_refl eq_refl eq_refl eq_refl eq_refl Hne eq_refl).
Defined.

(** Deleting "s1" out of two sessions. *)
Lemma delete_session_removes_only_it_witness :
  exists w',
    delete_session "s1" Scenario.two_sessions =
    (Return "Session deleted successfully", w') /\
    fst (get_session "s1" w') = Raise (HTTPException 404 "Session not found") /\
    fst (delete_session "s1" w') = Raise (HTTPException 404 "Session not found") /\
    (forall sid', sid' <> "s1" ->
                  dict_getitem sid' (chat_sessions w') =
                  dict_getitem sid' (chat_sessions Scenario.two_sessions)) /\
    (forall out out',
        fst (list_sessions Scenario.two_sessions) = Return out ->
        fst (list_sessions w') = Return out' ->
        List.length out = S (List.length out')).
Proof.
  exact (delete_session_removes_only_it "s1" (mkSession "m1" [] 10 10)
           Scenario.two_sessions two_sessions_keys eq_refl).
Defined.

(** The listing of two sessions names each identifier once. *)
Lemma list_and_get_agree_witness :
  NoDup
    (map info_session_id
       [mkSessionInfo "s2" "m1" 20 30 0; mkSessionInfo "s1" "m1" 10 10 0]).
Proof.
  exact (proj2 (proj2 (list_and_get_agree Scenario.two_sessions
                         [mkSessionInfo "s2" "m1" 20 30 0;
                          mkSessionInfo "s1" "m1" 10 10 0]
                         two_sessions_keys eq_refl))).
Defined.

(** The backend is down when a session is to be created. *)
Lemma failed_create_new_session_stores_nothing_witness :
  Scenario.one_session = Scenario.one_session /\
  HTTPException 503 "Ollama server is not available" =
  HTTPException 503 "Ollama server is not available".
Proof.
  exact (failed_create_new_session_stores_nothing Scenario.clock Scenario.uuid4
           Scenario.json_loads Unreachable "m1" Scenario.one_session
           Scenario.one_session
           (HTTPException 503 "Ollama server is not available") eq_refl).
Defined.

(** The backend lists "m1" and a session is created for it. *)
Lemma create_new_session_binds_listed_model_witness :
  exists w',
    create_new_session Scenario.clock Scenario.uuid4 Scenario.json_loads
      (Success "tags") "m1" Scenario.one_session =
    (Return ("id-1", "m1", 100), w') /\
    get_session "id-1" w' =
    (Return (mkSessionDetails "id-1" "m1" 100 101 []), w') /\
    (forall sid', sid' <> "id-1" ->
                  dict_getitem sid' (chat_sessions w') =
                  dict_getitem sid' (chat_sessions Scenario.one_session)).
Proof.
  exact (create_new_session_binds_listed_model Scenario.clock Scenario.uuid4
           Scenario.json_loads "tags" "m1"
           (JObj [("models", JArr [JObj [("name", JStr "m1")]])])
           (JArr [JObj [("name", JStr "m1")]])
           [JObj [("name", JStr "m1")]] [JStr "m1"]
           Scenario.one_session eq_refl eq_refl eq_refl eq_refl eq_refl).
Defined.

(** The backend describes two models: the first with a further key and
    null details, the second with details and its keys in another order. *)
Lemma list_models_decodes_tag_entries_witness :
  list_models Scenario.json_loads_more Scenario.exc_str Scenario.coerce_str
    Scenario.coerce_int Scenario.coerce_dict (Success "two models")
    Scenario.empty_world =
  (Return [mkModelInfo "m1" "2024-01-01" 42 "abc" None;
           mkModelInfo "m2" "2024-02-02" 7 "def"
             (Some [("family", JStr "llama")])],
   Scenario.empty_world).
Proof.
  refine (proj1
            (list_models_decodes_tag_entries Scenario.json_loads_more
               Scenario.exc_str Scenario.coerce_str Scenario.coerce_int
               Scenario.coerce_dict "two models" _
               [mkModelInfo "m1" "2024-01-01" 42 "abc" None;
                mkModelInfo "m2" "2024-02-02" 7 "def"
                  (Some [("family", JStr "llama")])]
               Scenario.empty_world eq_refl)
            _ eq_refl _).
  repeat constructor; eexists; repeat split.
Defined.

(** After one blocking turn the times of "id-1" are 100, 102, 103, 104. *)
Lemma histories_are_chronological_witness :
  let ops := [OpChat Scenario.says_hello (mkChatRequest "hi" "m1" None None)] in
  let w :=
    run Scenario.clock Scenario.uuid4 Scenario.json_loads Scenario.exc_str
      Scenario.coerce_str ops initial_world in
  let s :=
    mkSession "m1"
      [mkMessage "user" (JStr "hi") 102;
       mkMessage "assistant" (JStr "hello") 103]
      100 104 in
  StronglySorted Z.le (created_at s :: map timestamp (messages s)) /\
  created_at s <= last_updated s /\
  last_updated s <= Scenario.clock (ticks w) /\
  Forall (fun m => timestamp m <= Scenario.clock (ticks w)) (messages s).
Proof.
  intros ops w s.
  exact (histories_are_chronological Scenario.clock Scenario.uuid4
           Scenario.json_loads Scenario.exc_str Scenario.coerce_str
           scenario_clock_monotone ops "id-1" s eq_refl).
Defined.

(** The first turn of the process: its session is the most recent one. *)
Lemma completed_turn_is_most_recent_witness :
  let w' :=
    snd (chat_with_model Scenario.clock Scenario.uuid4 Scenario.json_loads
           Scenario.exc_str Scenario.coerce_str Scenario.says_hello
           (mkChatRequest "hi" "m1" None None) initial_world) in
  (exists s', dict_getitem "id-1" (chat_sessions w') = Some s' /\
              last_updated s' = 104) /\
  forall out e,
    fst (list_sessions w') = Return out -> In e out ->
    info_last_updated e <= 104.
Proof.
  exact (completed_turn_is_most_recent Scenario.clock Scenario.uuid4
           Scenario.json_loads Scenario.exc_str Scenario.coerce_str
           scenario_clock_monotone [] Scenario.says_hello
           (mkChatRequest "hi" "m1" None None)
           (mkWorld [("id-1", mkSession "m1" [] 100 101)] 2 1 [])
           "id-1" (mkSession "m1" [] 100 101) "hello" (JStr "hello")
           eq_refl eq_refl eq_refl eq_refl eq_refl).
Defined.
